(** * SQUID global-analysis example script: a shallow embedding

    The development embeds [examples/example_global_analysis.py] as a
    program of a small state-and-exception monad.  The Python module
    namespace is a finite map from names to dynamically typed values, the
    file system is a finite map from paths to nodes, and every call that
    leaves the script (kipoi, squid, mavenn, numpy, matplotlib, the file
    system) is answered by a [world] and recorded, with its answer, in a
    trace. *)

From Stdlib Require Import ZArith String Ascii List Lia.
From stdpp Require Import base gmap strings list.

Local Open Scope string_scope.
Local Open Scope Z_scope.

(** ** Python values and the operators the script applies to them *)

Module Py.

#[local] Set Warnings "-register-all".

Inductive value : Type :=
| VNone
| VBool (b : bool)
| VInt (n : Z)
| VFloat (literal : string)
| VStr (s : string)
| VList (items : list value)
| VModule (name : string)
| VAttr (obj : value) (attr : string)
| VObj (id : nat).

Inductive exn : Type :=
| NameError (name : string)
| TypeError (what : string)
| ValueError (what : string)
| IndexError
| ZeroDivisionError
| FileExistsError (path : string)
| FileNotFoundError (path : string)
| LibraryError (cls : string).

Inductive outcome (A : Type) : Type :=
| Ok (a : A)
| Raise (e : exn).
Arguments Ok {A} a.
Arguments Raise {A} e.

Definition len_str (s : string) : Z := Z.of_nat (String.length s).

(** [s * n]: a string repeated; a count below one gives the empty string. *)
Fixpoint repeat_str (s : string) (n : nat) : string :=
  match n with
  | O => ""
  | S n' => s +:+ repeat_str s n'
  end.

Definition str_mul (s : string) (n : Z) : string := repeat_str s (Z.to_nat n).

(** [s[:k]]: a negative bound counts from the end, and the bound is
    clamped to the string. *)
Definition str_slice_to (s : string) (k : Z) : string :=
  let stop := if k <? 0 then Z.max (k + len_str s) 0 else Z.min k (len_str s) in
  String.substring 0 (Z.to_nat stop) s.

Definition floordiv (a b : value) : outcome value :=
  match a, b with
  | VInt x, VInt y => if y =? 0 then Raise ZeroDivisionError else Ok (VInt (x / y))
  | _, _ => Raise (TypeError "//")
  end.

Definition mul (a b : value) : outcome value :=
  match a, b with
  | VInt x, VInt y => Ok (VInt (x * y))
  | VStr s, VInt n => Ok (VStr (str_mul s n))
  | _, _ => Raise (TypeError "*")
  end.

Definition add (a b : value) : outcome value :=
  match a, b with
  | VInt x, VInt y => Ok (VInt (x + y))
  | VStr s, VStr t => Ok (VStr (s +:+ t))
  | VList xs, VList ys => Ok (VList (xs ++ ys)%list)
  | _, _ => Raise (TypeError "+")
  end.

Definition neg (a : value) : outcome value :=
  match a with
  | VInt x => Ok (VInt (- x))
  | _ => Raise (TypeError "unary -")
  end.

Definition slice_to (a k : value) : outcome value :=
  match a, k with
  | VStr s, VInt n => Ok (VStr (str_slice_to s n))
  | _, _ => Raise (TypeError "slice")
  end.

Definition int_of (a : value) : outcome value :=
  match a with
  | VInt x => Ok (VInt x)
  | VBool b => Ok (VInt (if b then 1 else 0))
  | _ => Raise (TypeError "int()")
  end.

Definition index (a i : value) : outcome value :=
  match a, i with
  | VList xs, VInt n =>
      let k := if n <? 0 then n + Z.of_nat (length xs) else n in
      if k <? 0 then Raise IndexError
      else match xs !! Z.to_nat k with
           | Some v => Ok v
           | None => Raise IndexError
           end
  | _, _ => Raise (TypeError "subscript")
  end.

(** The length of a string or list; other values answer through [__len__]. *)
Definition len_value (a : value) : option Z :=
  match a with
  | VStr s => Some (len_str s)
  | VList xs => Some (Z.of_nat (length xs))
  | _ => None
  end.

(** The two items of [x, y = a]. *)
Definition as_pair (a : value) : outcome (value * value) :=
  match a with
  | VList [x; y] => Ok (x, y)
  | VList _ => Raise (ValueError "unpack")
  | _ => Raise (TypeError "unpack")
  end.

Definition truthy (a : value) : bool :=
  match a with
  | VNone => false
  | VBool b => b
  | VInt n => negb (n =? 0)
  | VStr s => negb (String.eqb s "")
  | VList xs => match xs with [] => false | _ => true end
  | _ => true
  end.

(** The dotted name a module attribute stands for:
    [VAttr (VAttr (VModule "os") "path") "join"] is [os.path.join]. *)
Fixpoint qualname (v : value) : option (list string) :=
  match v with
  | VModule m => Some [m]
  | VAttr o a =>
      match qualname o with
      | Some q => Some (q ++ [a])%list
      | None => None
      end
  | _ => None
  end.

Fixpoint names_eqb (p q : list string) : bool :=
  match p, q with
  | [], [] => true
  | x :: p', y :: q' => String.eqb x y && names_eqb p' q'
  | _, _ => false
  end.

Definition is_fn (v : value) (q : list string) : bool :=
  match qualname v with
  | Some p => names_eqb p q
  | None => false
  end.

End Py.
Export Py.

(** ** [os.path] on POSIX paths *)

Module OsPath.

Definition sep : ascii := "/"%char.

Fixpoint ends_with_sep (p : string) : bool :=
  match p with
  | EmptyString => false
  | String c EmptyString => Ascii.eqb c sep
  | String _ rest => ends_with_sep rest
  end.

Definition starts_with_sep (p : string) : bool :=
  match p with
  | String c _ => Ascii.eqb c sep
  | EmptyString => false
  end.

(** [posixpath.join(a, b)] for one component [b]. *)
Definition join (a b : string) : string :=
  if starts_with_sep b then b
  else if (String.eqb a "" || ends_with_sep a)%bool then a +:+ b
  else a +:+ String sep b.

(** [head = p[:p.rfind('/') + 1]]: everything up to and including the last
    separator, as a list of characters in reverse. *)
Fixpoint drop_to_sep (rev_p : list ascii) : list ascii :=
  match rev_p with
  | [] => []
  | c :: rest => if Ascii.eqb c sep then rev_p else drop_to_sep rest
  end.

Fixpoint rstrip_sep (rev_p : list ascii) : list ascii :=
  match rev_p with
  | [] => []
  | c :: rest => if Ascii.eqb c sep then rstrip_sep rest else rev_p
  end.

(** [posixpath.dirname(p)]: the head, with trailing separators stripped
    unless the head consists of separators only. *)
Definition dirname (p : string) : string :=
  let head := drop_to_sep (rev (list_ascii_of_string p)) in
  match rstrip_sep head with
  | [] => string_of_list_ascii (rev head)
  | stripped => string_of_list_ascii (rev stripped)
  end.

End OsPath.

(** ** The interpreter state, the outside world and the monad *)

Module Run.

(** What leaves the script: an import, a call into a library or the file
    system, an attribute read or written on a library object. *)
Inductive call : Type :=
| Import (module : list string)
| Invoke (callee : value) (args : list value) (kwargs : list (string * value))
| GetAttr (obj : value) (attr : string)
| SetAttr (obj : value) (attr : string) (v : value).

(** A trace entry pairs a call with the answer it got. *)
Definition entry : Type := call * outcome value.

Inductive node : Type :=
| Dir
| File (content : value).

Record state : Type := mkState {
  globals : gmap string value;   (* the module namespace *)
  sys_attrs : gmap string value; (* attributes of the [sys] module *)
  fs : gmap string node;         (* the file system, by absolute path *)
  trace : list entry;
}.

Record world : Type := mkWorld {
  script_file : string;                       (* [__file__] *)
  abspath : string -> string;                 (* [os.path.abspath] under the current directory *)
  respond : list entry -> call -> outcome value; (* the libraries' answers *)
  sys_path : list string;                     (* [sys.path] as the interpreter set it up *)
}.

Definition M (A : Type) : Type := world -> state -> outcome A * state.

Definition ret {A} (a : A) : M A := fun _ s => (Ok a, s).

Definition raise {A} (e : exn) : M A := fun _ s => (Raise e, s).

Definition bind {A B} (m : M A) (k : A -> M B) : M B :=
  fun w s =>
    match m w s with
    | (Ok a, s') => k a w s'
    | (Raise e, s') => (Raise e, s')
    end.

Notation "x <- m ;; k" := (bind m (fun x => k))
  (at level 100, m at next level, right associativity).
Notation "m ;; k" := (bind m (fun _ => k))
  (at level 100, right associativity).

Definition lift {A} (o : outcome A) : M A := fun _ s => (o, s).

Definition set_globals (g : gmap string value) (s : state) : state :=
  mkState g (sys_attrs s) (fs s) (trace s).

Definition set_sys (a : gmap string value) (s : state) : state :=
  mkState (globals s) a (fs s) (trace s).

Definition set_fs (f : gmap string node) (s : state) : state :=
  mkState (globals s) (sys_attrs s) f (trace s).

Definition log (c : call) (r : outcome value) (s : state) : state :=
  mkState (globals s) (sys_attrs s) (fs s) (trace s ++ [(c, r)]).

(** A name is looked up in the module namespace; an unbound name raises
    [NameError].  (The builtins the script uses, [int], [len] and [print],
    are primitives below: the script never rebinds them.) *)
Definition var (x : string) : M value :=
  fun _ s =>
    match globals s !! x with
    | Some v => (Ok v, s)
    | None => (Raise (NameError x), s)
    end.

Definition bind_name (x : string) (v : value) : M unit :=
  fun _ s => (Ok tt, set_globals (<[x:=v]> (globals s)) s).

Definition assign (x : string) (e : M value) : M unit :=
  v <- e ;; bind_name x v.

(** A call answered by the world: the answer is logged and returned, an
    exception answer is raised. *)
Definition ask (c : call) : M value :=
  fun w s => let r := respond w (trace s) c in (r, log c r s).

(** A call whose answer the modelled state determines. *)
Definition record (c : call) (r : outcome value) : M value :=
  fun _ s => (r, log c r s).

Definition module_value (dotted : list string) : value :=
  match dotted with
  | [] => VNone
  | m :: rest => fold_left VAttr rest (VModule m)
  end.

(** [import os], [import sys]: modules of the interpreter itself. *)
Definition import_std (name : string) : M unit := bind_name name (VModule name).

(** [import a.b as x]: the world decides whether the module loads. *)
Definition import_as (dotted : list string) (x : string) : M unit :=
  ask (Import dotted) ;; bind_name x (module_value dotted).

Definition import_ (name : string) : M unit := import_as [name] name.

(** Calls the script makes into [os], [sys] and [numpy]'s file functions act
    on the modelled state; every other call is answered by the world. *)
Definition invoke (callee : value) (args : list value) (kwargs : list (string * value)) : M value :=
  let c := Invoke callee args kwargs in
  if is_fn callee ["os"; "path"; "abspath"] then
    match args, kwargs with
    | [VStr p], [] => fun w s => (Ok (VStr (abspath w p)), s)
    | _, _ => raise (TypeError "abspath")
    end
  else if is_fn callee ["os"; "path"; "dirname"] then
    match args, kwargs with
    | [VStr p], [] => ret (VStr (OsPath.dirname p))
    | _, _ => raise (TypeError "dirname")
    end
  else if is_fn callee ["os"; "path"; "join"] then
    match args, kwargs with
    | [VStr a; VStr b], [] => ret (VStr (OsPath.join a b))
    | _, _ => raise (TypeError "join")
    end
  else if is_fn callee ["os"; "path"; "exists"] then
    match args, kwargs with
    | [VStr p], [] =>
        fun w s => record c (Ok (VBool (bool_decide (is_Some (fs s !! p))))) w s
    | _, _ => raise (TypeError "exists")
    end
  else if is_fn callee ["os"; "makedirs"] then
    match args, kwargs with
    | [VStr p], [] =>
        fun w s =>
          match fs s !! p with
          | Some _ => record c (Raise (FileExistsError p)) w s
          | None =>
              match respond w (trace s) c with
              | Ok _ => (Ok VNone, log c (Ok VNone) (set_fs (<[p:=Dir]> (fs s)) s))
              | Raise e => (Raise e, log c (Raise e) s)
              end
          end
    | _, _ => raise (TypeError "makedirs")
    end
  else if is_fn callee ["sys"; "path"; "append"] then
    match args, kwargs with
    | [v], [] =>
        fun w s =>
          match sys_attrs s !! "path" with
          | Some (VList l) => (Ok VNone, set_sys (<["path":=VList (l ++ [v])]> (sys_attrs s)) s)
          | _ => (Raise (TypeError "append"), s)
          end
    | _, _ => raise (TypeError "append")
    end
  else if is_fn callee ["numpy"; "save"] then
    match args, kwargs with
    | [VStr p; arr], [] =>
        fun w s =>
          match respond w (trace s) c with
          | Ok _ => (Ok VNone, log c (Ok VNone) (set_fs (<[p:=File arr]> (fs s)) s))
          | Raise e => (Raise e, log c (Raise e) s)
          end
    | _, _ => raise (TypeError "save")
    end
  else if is_fn callee ["numpy"; "load"] then
    match args, kwargs with
    | [VStr p], [] =>
        fun w s =>
          match fs s !! p with
          | Some (File v) => record c (Ok v) w s
          | _ => record c (Raise (FileNotFoundError p)) w s
          end
    | _, _ => raise (TypeError "load")
    end
  else ask c.

(** *** Expressions *)

Definition lit (v : value) : M value := ret v.
Definition str (s : string) : M value := ret (VStr s).
Definition int (n : Z) : M value := ret (VInt n).
Definition float (literal : string) : M value := ret (VFloat literal).

Definition binop (f : value -> value -> outcome value) (e1 e2 : M value) : M value :=
  a <- e1 ;; b <- e2 ;; lift (f a b).

Definition unop (f : value -> outcome value) (e : M value) : M value :=
  a <- e ;; lift (f a).

Fixpoint eval_all (es : list (M value)) : M (list value) :=
  match es with
  | [] => ret []
  | e :: es' => v <- e ;; vs <- eval_all es' ;; ret (v :: vs)
  end.

Fixpoint eval_kwargs (kes : list (string * M value)) : M (list (string * value)) :=
  match kes with
  | [] => ret []
  | (k, e) :: kes' => v <- e ;; kvs <- eval_kwargs kes' ;; ret ((k, v) :: kvs)
  end.

Definition list_ (es : list (M value)) : M value :=
  vs <- eval_all es ;; ret (VList vs).

(** [f(args, kwargs)]: the callee first, then the arguments left to right. *)
Definition call_ (f : M value) (args : list (M value)) (kwargs : list (string * M value)) : M value :=
  fv <- f ;; avs <- eval_all args ;; kvs <- eval_kwargs kwargs ;; invoke fv avs kvs.

(** [e.name] naming a submodule, function or method. *)
Definition attr (e : M value) (name : string) : M value :=
  v <- e ;; ret (VAttr v name).

(** [e.name] reading data off a library object. *)
Definition read_attr (e : M value) (name : string) : M value :=
  v <- e ;; ask (GetAttr v name).

(** [e.name = e'] *)
Definition update_sys (name : string) (v : value) : M unit :=
  fun _ s => (Ok tt, set_sys (<[name:=v]> (sys_attrs s)) s).

Definition set_attr (e : M value) (name : string) (e' : M value) : M unit :=
  o <- e ;; v <- e' ;;
  if is_fn o ["sys"] then update_sys name v
  else ask (SetAttr o name v) ;; ret tt.

(** [len(e)]: computed on strings and lists, [__len__] of a library object. *)
Definition len_ (e : M value) : M value :=
  v <- e ;;
  match len_value v with
  | Some n => ret (VInt n)
  | None => ask (Invoke (VAttr v "__len__") [] [])
  end.

Definition int_ (e : M value) : M value := unop int_of e.

Definition print_ (args : list (M value)) : M unit :=
  vs <- eval_all args ;; ask (Invoke (VAttr (VModule "builtins") "print") vs []) ;; ret tt.

Definition not_ (e : M value) : M value :=
  v <- e ;; ret (VBool (negb (truthy v))).

(** *** Statements *)

Definition skip : M unit := ret tt.

Definition expr (e : M value) : M unit := e ;; ret tt.

Definition if_ (c : M value) (t f : M unit) : M unit :=
  v <- c ;; if truthy v then t else f.

(** [x, y = e] *)
Definition unpack2 (x y : string) (e : M value) : M unit :=
  v <- e ;; p <- lift (as_pair v) ;; bind_name x (fst p) ;; bind_name y (snd p).

End Run.
Export Run.

(** ** The script, statement by statement *)

Module Script.

(** The values a user edits in the file: the [if 1:] switch of line 50 and
    the two settings of lines 40 and 43. *)
Record config : Type := mkConfig {
  switch : Z;
  seq_length : Z;
  pattern : string;
}.

Definition as_written : config :=
  {| switch := 1; seq_length := 1000; pattern := "AGCCATCAA" |}.

(** [x.a.b]: the name [x] looked up, then attributes taken. *)
Definition qual (x : string) (names : list string) : M value :=
  fold_left attr names (var x).

Definition os_path_join (a b : M value) : M value :=
  call_ (qual "os" ["path"; "join"]) [a; b] [].

(** Lines 17-18. *)
Definition header : M unit :=
  import_std "os" ;;
  import_std "sys" ;;
  set_attr (var "sys") "dont_write_bytecode" (lit (VBool true)).

(** Lines 24-25. *)
Definition settings : M unit :=
  assign "gpu" (lit (VBool false)) ;;
  assign "save" (lit (VBool true)).

(** Lines 31-35. *)
Definition output_dir : M unit :=
  assign "py_dir"
    (call_ (qual "os" ["path"; "dirname"])
       [call_ (qual "os" ["path"; "abspath"]) [var "__file__"] []] []) ;;
  assign "parent_dir" (call_ (qual "os" ["path"; "dirname"]) [var "py_dir"] []) ;;
  assign "save_dir" (os_path_join (var "py_dir") (str "outputs_global_analysis")) ;;
  if_ (not_ (call_ (qual "os" ["path"; "exists"]) [var "save_dir"] []))
    (expr (call_ (qual "os" ["makedirs"]) [var "save_dir"] []))
    skip.

(** Lines 38-47. *)
Definition motif (cfg : config) : M unit :=
  assign "task_idx" (str "Nanog") ;;
  assign "alphabet" (list_ [str "A"; str "C"; str "G"; str "T"]) ;;
  assign "seq_length" (int (seq_length cfg)) ;;
  assign "pattern" (str (pattern cfg)) ;;
  assign "start_pos" (int_ (binop floordiv (var "seq_length") (int 2))) ;;
  assign "seq"
    (binop add
       (binop add
          (binop mul (str "N") (int_ (binop floordiv (var "seq_length") (int 2))))
          (var "pattern"))
       (binop slice_to
          (binop mul (str "N") (int_ (binop floordiv (var "seq_length") (int 2))))
          (unop neg (len_ (var "pattern"))))) ;;
  assign "mut_window"
    (list_ [var "start_pos"; binop add (var "start_pos") (len_ (var "pattern"))]).

(** Lines 51-81: STEP 1 (BPNet). *)
Definition step1 : M unit :=
  import_ "kipoi" ;;
  import_as ["numpy"] "np" ;;
  expr (call_ (qual "sys" ["path"; "append"])
          [os_path_join (var "parent_dir") (str "squid")] []) ;;
  import_ "utils" ;;
  import_ "predictor" ;;
  import_ "mutagenizer" ;;
  import_ "mave" ;;
  assign "x" (call_ (qual "utils" ["seq2oh"]) [var "seq"; var "alphabet"] []) ;;
  assign "model" (call_ (qual "kipoi" ["get_model"]) [str "BPNet-OSKN"] []) ;;
  assign "kipoi_predictor"
    (call_ (qual "predictor" ["BPNetPredictor"])
       [qual "model" ["predict_on_batch"]]
       [("task_idx", var "task_idx"); ("batch_size", int 512)]) ;;
  assign "mut_generator"
    (call_ (qual "mutagenizer" ["RandomMutagenesis"]) []
       [("mut_rate", float "0.1"); ("uniform", lit (VBool false))]) ;;
  assign "seq_length" (len_ (var "x")) ;;
  assign "mut_window" (list_ [int 0; var "seq_length"]) ;;
  assign "num_sim" (int 10000) ;;
  assign "mave"
    (call_ (qual "mave" ["InSilicoMAVE"])
       [var "mut_generator"]
       [("mut_predictor", var "kipoi_predictor");
        ("seq_length", var "seq_length");
        ("mut_window", var "mut_window");
        ("context_agnostic", lit (VBool true))]) ;;
  unpack2 "x_mut" "y_mut"
    (call_ (qual "mave" ["generate"]) [var "x"] [("num_sim", var "num_sim")]) ;;
  print_ [str "Saving in silico MAVE dataset..."] ;;
  expr (call_ (qual "np" ["save"])
          [os_path_join (var "save_dir") (str "x_mut.npy"); var "x_mut"] []) ;;
  expr (call_ (qual "np" ["save"])
          [os_path_join (var "save_dir") (str "y_mut.npy"); var "y_mut"] []).

(** Lines 85-120: STEP 2 (MAVE-NN). *)
Definition step2 : M unit :=
  import_ "mavenn" ;;
  import_ "squid" ;;
  import_as ["matplotlib"; "pyplot"] "plt" ;;
  assign "gpmap" (str "additive") ;;
  assign "x_mut"
    (call_ (qual "np" ["load"]) [os_path_join (var "save_dir") (str "x_mut.npy")] []) ;;
  assign "y_mut"
    (call_ (qual "np" ["load"]) [os_path_join (var "save_dir") (str "y_mut.npy")] []) ;;
  assign "surrogate_model"
    (call_ (qual "squid" ["surrogate_zoo"; "SurrogateMAVENN"])
       [read_attr (var "x_mut") "shape"]
       [("num_tasks", binop index (read_attr (var "y_mut") "shape") (int 1));
        ("gpmap", var "gpmap");
        ("regression_type", str "GE");
        ("linearity", str "nonlinear");
        ("noise", str "SkewedT");
        ("noise_order", int 2);
        ("reg_strength", float "0.1");
        ("alphabet", var "alphabet");
        ("deduplicate", lit (VBool true));
        ("gpu", var "gpu")]) ;;
  unpack2 "surrogate" "mave_df"
    (call_ (qual "surrogate_model" ["train"])
       [var "x_mut"; var "y_mut"]
       [("learning_rate", float "5e-4");
        ("epochs", int 500);
        ("batch_size", int 100);
        ("early_stopping", lit (VBool true));
        ("patience", int 25);
        ("restore_best_weights", lit (VBool true));
        ("save_dir", lit VNone);
        ("verbose", int 1)]) ;;
  assign "params"
    (call_ (qual "surrogate_model" ["get_params"]) [] [("gauge", str "empirical")]) ;;
  assign "logo"
    (call_ (qual "surrogate_model" ["get_logo"]) []
       [("mut_window", var "mut_window"); ("full_length", var "seq_length")]) ;;
  assign "logo_df" (call_ (qual "squid" ["utils"; "arr2pd"]) [var "logo"; var "alphabet"] []) ;;
  print_ [var "logo_df"] ;;
  expr (call_ (qual "logo_df" ["to_csv"])
          [os_path_join (var "save_dir") (str "logo.csv")] []) ;;
  assign "fig"
    (call_ (qual "squid" ["impress"; "plot_additive_logo"])
       [var "logo"]
       [("center", lit (VBool true));
        ("view_window", var "mut_window");
        ("alphabet", var "alphabet");
        ("fig_size", list_ [int 20; float "2.5"]);
        ("save_dir", var "save_dir")]).

(** Everything before the switch of line 50. *)
Definition prologue (cfg : config) : M unit :=
  header ;; settings ;; output_dir ;; motif cfg.

Definition script (cfg : config) : M unit :=
  prologue cfg ;;
  if_ (int (switch cfg)) step1 step2.

(** The interpreter sets [__file__] over whatever globals it was started
    with ([runpy.run_path]'s [init_globals]; none for [python file.py]). *)
Definition initial_globals (w : world) (extra : gmap string value) : gmap string value :=
  <["__file__" := VStr (script_file w)]> extra.

Definition initial_sys (w : world) (argv : list string) : gmap string value :=
  <["argv" := VList (VStr <$> argv)]>
    (<["path" := VList (VStr <$> sys_path w)]>
       (<["dont_write_bytecode" := VBool false]> ∅)).

Definition initial_state (w : world) (argv : list string) (extra : gmap string value)
    (disk : gmap string node) : state :=
  mkState (initial_globals w extra) (initial_sys w argv) disk [].

Definition run_from (cfg : config) (w : world) (argv : list string)
    (extra : gmap string value) (disk : gmap string node) : outcome unit * state :=
  script cfg w (initial_state w argv extra disk).

(** [python example_global_analysis.py argv...] on a given disk. *)
Definition run (cfg : config) (w : world) (argv : list string)
    (disk : gmap string node) : outcome unit * state :=
  run_from cfg w argv ∅ disk.

End Script.
Export Script.

(** ** What a run shows: its trace, its files, its outcome *)

Module Observe.

(** [py_dir] and [save_dir] of lines 31 and 33. *)
Definition py_dir_of (w : world) : string :=
  OsPath.dirname (abspath w (script_file w)).

Definition save_dir_of (w : world) : string :=
  OsPath.join (py_dir_of w) "outputs_global_analysis".

(** The function or method a call names: [InSilicoMAVE], [save], ... *)
Definition callee_name (c : call) : option string :=
  match c with
  | Invoke (VAttr _ a) _ _ => Some a
  | _ => None
  end.

Definition args_of (c : call) : list value :=
  match c with
  | Invoke _ args _ => args
  | _ => []
  end.

Fixpoint lookup_key (k : string) (kws : list (string * value)) : option value :=
  match kws with
  | [] => None
  | (k', v) :: rest => if String.eqb k k' then Some v else lookup_key k rest
  end.

Definition kwarg (k : string) (c : call) : option value :=
  match c with
  | Invoke _ _ kws => lookup_key k kws
  | _ => None
  end.

Definition names (c : call) (a : string) : bool :=
  match callee_name c with
  | Some b => String.eqb a b
  | None => false
  end.

Definition imported (m : list string) (t : list entry) : bool :=
  existsb (fun e => match fst e with Import m' => names_eqb m m' | _ => false end) t.

Definition called (a : string) (t : list entry) : bool :=
  existsb (fun e => names (fst e) a) t.

(** A phase has run once its first statement has: line 51 imports [kipoi],
    line 85 imports [mavenn]. *)
Definition step1_ran (t : list entry) : bool := imported ["kipoi"] t.
Definition step2_ran (t : list entry) : bool := imported ["mavenn"] t.

Definition step1_modules : list (list string) :=
  [["kipoi"]; ["numpy"]; ["utils"]; ["predictor"]; ["mutagenizer"]; ["mave"]].

Definition step2_modules : list (list string) :=
  [["mavenn"]; ["squid"]; ["matplotlib"; "pyplot"]].

(** Where a call puts a file or directory: the path given to [os.makedirs],
    [np.save] and [to_csv], the [save_dir] given to [plot_additive_logo]. *)
Definition artifact_target (c : call) : option string :=
  if (names c "makedirs" || names c "save" || names c "to_csv")%bool then
    match args_of c with
    | VStr p :: _ => Some p
    | _ => None
    end
  else if names c "plot_additive_logo" then
    match kwarg "save_dir" c with
    | Some (VStr p) => Some p
    | _ => None
    end
  else None.

(** [p] is the directory [d] or an entry directly inside it. *)
Definition under (d p : string) : Prop :=
  p = d \/ exists name, p = OsPath.join d name /\ p = d +:+ "/" +:+ name.

Definition is_ok {A} (o : outcome A) : bool :=
  match o with
  | Ok _ => true
  | Raise _ => false
  end.

(** A trace in which every call was answered without an exception. *)
Definition tidy (t : list entry) : Prop :=
  Forall (fun e => is_ok (snd e) = true) t.

(** The value [len(x)] gave, read off the trace [t]. *)
Definition len_answer (t : list entry) (x n : value) : Prop :=
  match len_value x with
  | Some m => n = VInt m
  | None => (Invoke (VAttr x "__len__") [] [], Ok n) ∈ t
  end.

(** Line 46 as a function of the two settings. *)
Definition seq_of (cfg : config) : string :=
  (str_mul "N" (seq_length cfg / 2) +:+ pattern cfg)
  +:+ str_slice_to (str_mul "N" (seq_length cfg / 2)) (- len_str (pattern cfg)).

(** Line 47 as a function of the two settings. *)
Definition motif_window (cfg : config) : value :=
  VList [VInt (seq_length cfg / 2);
         VInt (seq_length cfg / 2 + len_str (pattern cfg))].

(** Two states that differ at most in [sys.argv]. *)
Definition same_but_argv (s1 s2 : state) : Prop :=
  globals s1 = globals s2 /\ fs s1 = fs s2 /\ trace s1 = trace s2 /\
  delete "argv" (sys_attrs s1) = delete "argv" (sys_attrs s2).

(** Control has reached line 93 once line 87, the last statement before
    it that can fail, has succeeded. *)
Definition reached_np_load (t : list entry) : bool :=
  existsb (fun e => match e with
                    | (Import m, Ok _) => names_eqb m ["matplotlib"; "pyplot"]
                    | _ => false
                    end) t.

(** [os.makedirs] raised. *)
Definition setup_failed (t : list entry) : bool :=
  existsb (fun e => names (fst e) "makedirs" && negb (is_ok (snd e)))%bool t.

(** A computation that never swallows an exception: from a tidy trace it
    ends tidy, or with the exception some call has just raised. *)
Definition faithful {A} (m : M A) : Prop :=
  forall w s, tidy (trace s) ->
    match m w s with
    | (Ok _, s') => tidy (trace s')
    | (Raise e, s') =>
        tidy (trace s') \/
        exists t c, trace s' = (t ++ [(c, Raise e)])%list /\ tidy t
    end.

(** A computation whose outcome and effects do not depend on [sys.argv]. *)
Definition secure {A} (m : M A) : Prop :=
  forall w s1 s2, same_but_argv s1 s2 ->
    fst (m w s1) = fst (m w s2) /\
    same_but_argv (snd (m w s1)) (snd (m w s2)).

(** A namespace written as the assignments made so far, the latest first,
    over the globals the run started with. *)
Fixpoint binds (l : list (string * value)) (base : gmap string value) : gmap string value :=
  match l with
  | [] => base
  | (x, v) :: l' => <[x:=v]> (binds l' base)
  end.

(** Calls that put something on disk. *)
Definition writes (c : call) : bool :=
  (names c "makedirs" || names c "save" || names c "to_csv"
   || names c "plot_additive_logo")%bool.

(** The switch of line 50 selects STEP 1. *)
Definition selects_step1 (cfg : config) : bool := truthy (VInt (switch cfg)).

(** The trace opens with the existence test of line 34 and, if the
    directory was missing, its creation on line 35. *)
Definition setup_first (w : world) (disk : gmap string node) (t : list entry) : Prop :=
  let d := VStr (save_dir_of w) in
  match disk !! save_dir_of w with
  | Some _ =>
      exists t', t = (Invoke (VAttr (VAttr (VModule "os") "path") "exists") [d] [],
                      Ok (VBool true)) :: t'
  | None =>
      exists t', t = (Invoke (VAttr (VAttr (VModule "os") "path") "exists") [d] [],
                      Ok (VBool false))
                     :: (Invoke (VAttr (VModule "os") "makedirs") [d] [], Ok VNone) :: t'
  end.

(** What every run of the script shows, whatever the world answers. *)
Record audit (cfg : config) (w : world) (extra : gmap string value)
    (disk : gmap string node) (r : outcome unit * state) : Prop := {
  (* the window and length given to [InSilicoMAVE] *)
  audit_mave : forall c a,
    (c, a) ∈ trace (snd r) -> names c "InSilicoMAVE" = true ->
    exists x n args,
      (Invoke (VAttr (VModule "utils") "seq2oh") args [], Ok x) ∈ trace (snd r) /\
      kwarg "mut_window" c = Some (VList [VInt 0; n]) /\
      kwarg "seq_length" c = Some n /\
      len_answer (trace (snd r)) x n;
  (* the window and length given to [get_logo] *)
  audit_logo : forall c a,
    (c, a) ∈ trace (snd r) -> names c "get_logo" = true ->
    kwarg "mut_window" c = Some (motif_window cfg) /\
    kwarg "full_length" c = Some (VInt (seq_length cfg));
  (* the phases *)
  audit_not_both : (step1_ran (trace (snd r)) && step2_ran (trace (snd r)))%bool = false;
  audit_step1 : step1_ran (trace (snd r)) = true -> selects_step1 cfg = true;
  audit_step2 : step2_ran (trace (snd r)) = true -> selects_step1 cfg = false;
  audit_one :
    setup_failed (trace (snd r)) = false ->
    step1_ran (trace (snd r)) = selects_step1 cfg /\
    step2_ran (trace (snd r)) = negb (selects_step1 cfg);
  (* STEP 2 without numpy *)
  audit_np :
    extra !! "np" = None -> selects_step1 cfg = false ->
    globals (snd r) !! "np" = None /\
    called "load" (trace (snd r)) = false /\
    called "train" (trace (snd r)) = false /\
    (forall u, fst r <> Ok u) /\
    (reached_np_load (trace (snd r)) = true -> fst r = Raise (NameError "np"));
  (* the output directory and what is written *)
  audit_targets : forall c a p,
    (c, a) ∈ trace (snd r) -> artifact_target c = Some p -> under (save_dir_of w) p;
  audit_files : forall p,
    fs (snd r) !! p <> disk !! p -> under (save_dir_of w) p;
  audit_setup :
    (step1_ran (trace (snd r)) || step2_ran (trace (snd r)))%bool = true ->
    is_Some (fs (snd r) !! save_dir_of w) /\ setup_first w disk (trace (snd r));
  audit_guard :
    called "makedirs" (trace (snd r)) = true -> disk !! save_dir_of w = None;
  audit_keeps : forall p, is_Some (disk !! p) -> is_Some (fs (snd r) !! p);
}.

(** What the lines before the switch leave behind. *)
Record prepared (cfg : config) (w : world) (disk : gmap string node)
    (r : outcome unit * state) : Prop := {
  prepared_seq :
    fst r = Ok tt -> globals (snd r) !! "seq" = Some (VStr (seq_of cfg));
  prepared_window :
    fst r = Ok tt -> globals (snd r) !! "mut_window" = Some (motif_window cfg);
  prepared_dir : fst r = Ok tt -> is_Some (fs (snd r) !! save_dir_of w);
  prepared_present :
    is_Some (disk !! save_dir_of w) -> fst r = Ok tt /\ fs (snd r) = disk;
}.

(** Weakest precondition of a computation from a given state. *)
Definition wp {A} (m : M A) (w : world) (s : state)
    (Q : outcome A * state -> Prop) : Prop :=
  Q (m w s).

(** Names with a modelled meaning in [invoke]; a method of any other name
    is answered by the world. *)
Definition modelled_name (a : string) : bool :=
  existsb (String.eqb a)
    ["abspath"; "dirname"; "join"; "exists"; "makedirs"; "append"; "save"; "load"].

End Observe.
Export Observe.

(** ** Three laboratories to run the script in *)

Module Lab.

Definition lab_file : string :=
  "/home/user/squid-nn/examples/example_global_analysis.py".

(** Every library call succeeds: constructors return fresh objects,
    [len(x)] is 1000, [generate] and [train] return pairs, [shape] is
    [(10000, 1)]. *)
Definition lab_answer (tr : list entry) (c : call) : outcome value :=
  match c with
  | Invoke _ _ _ =>
      if names c "__len__" then Ok (VInt 1000)
      else if (names c "generate" || names c "train")%bool
      then Ok (VList [VObj (length tr); VObj (S (length tr))])
      else Ok (VObj (length tr))
  | GetAttr _ _ => Ok (VList [VInt 10000; VInt 1])
  | _ => Ok VNone
  end.

(** The interpreter's search path: the script's directory, the standard
    library, the installed packages. *)
Definition lab_sys_path : list string :=
  ["/home/user/squid-nn/examples"; "/usr/lib/python3.7";
   "/usr/lib/python3.7/site-packages"].

Definition lab : world := mkWorld lab_file (fun p => p) lab_answer lab_sys_path.

(** The output directory cannot be created. *)
Definition read_only_lab : world :=
  mkWorld lab_file (fun p => p)
    (fun tr c => if names c "makedirs" then Raise (LibraryError "PermissionError")
                 else lab_answer tr c)
    lab_sys_path.

(** The model zoo cannot be reached. *)
Definition offline_lab : world :=
  mkWorld lab_file (fun p => p)
    (fun tr c => if names c "get_model" then Raise (LibraryError "ConnectionError")
                 else lab_answer tr c)
    lab_sys_path.

(** The docstring's second run: the switch turned off. *)
Definition step2_config : config :=
  {| switch := 0; seq_length := 1000; pattern := "AGCCATCAA" |}.

(** A setting with an odd sequence length. *)
Definition odd_config : config :=
  {| switch := 1; seq_length := 1001; pattern := "AGCCATCAA" |}.

(** The disk a successful STEP 1 leaves behind. *)
Definition disk_after_step1 : gmap string node :=
  fs (snd (run as_written lab [] ∅)).

(** Globals in which [np] is already bound to numpy. *)
Definition with_numpy : gmap string value := {["np" := VModule "numpy"]}.

(** A disk that already holds the output directory. *)
Definition disk_with_dir : gmap string node := {[save_dir_of lab := Dir]}.

(** The [InSilicoMAVE] call of STEP 1 in the first laboratory. *)
Definition lab_mave_entry : entry :=
  nth 13 (trace (snd (run as_written lab [] ∅))) (Import [], Ok VNone).

(** The [get_logo] call of STEP 2 in the first laboratory, numpy bound. *)
Definition lab_logo_entry : entry :=
  nth 11 (trace (snd (run_from step2_config lab [] with_numpy disk_after_step1)))
    (Import [], Ok VNone).

(** The failed [get_model] call of the offline laboratory. *)
Definition offline_entries : list entry :=
  trace (snd (run as_written offline_lab [] ∅)).

End Lab.
Export Lab.

(** ** The data flow of the two phases *)

Module Flow.

(** The alphabet of line 39. *)
Definition acgt : value := VList [VStr "A"; VStr "C"; VStr "G"; VStr "T"].

(** Lines 80, 81, 93, 94 and 117: the files under [save_dir]. *)
Definition x_mut_path (w : world) : string := OsPath.join (save_dir_of w) "x_mut.npy".
Definition y_mut_path (w : world) : string := OsPath.join (save_dir_of w) "y_mut.npy".
Definition logo_path (w : world) : string := OsPath.join (save_dir_of w) "logo.csv".

(** Line 53: [os.path.join(parent_dir, 'squid')]. *)
Definition squid_dir (w : world) : string :=
  OsPath.join (OsPath.dirname (py_dir_of w)) "squid".

(** The modules the selected phase imports. *)
Definition phase_modules (cfg : config) : list (list string) :=
  if selects_step1 cfg then step1_modules else step2_modules.

(** Every import of the trace is of one of the modules [ms]. *)
Definition imports_within (ms : list (list string)) (t : list entry) : bool :=
  forallb (fun e => match fst e with
                    | Import m => existsb (names_eqb m) ms
                    | _ => true
                    end) t.

(** The calls of STEP 1, each as its line writes it. *)

(* line 59 *)
Definition seq2oh_call (cfg : config) : call :=
  Invoke (module_value ["utils"; "seq2oh"]) [VStr (seq_of cfg); acgt] [].

(* line 62 *)
Definition get_model_call : call :=
  Invoke (module_value ["kipoi"; "get_model"]) [VStr "BPNet-OSKN"] [].

(* line 65 *)
Definition predictor_call (model : value) : call :=
  Invoke (module_value ["predictor"; "BPNetPredictor"])
    [VAttr model "predict_on_batch"]
    [("task_idx", VStr "Nanog"); ("batch_size", VInt 512)].

(* line 68 *)
Definition mutagenizer_call : call :=
  Invoke (module_value ["mutagenizer"; "RandomMutagenesis"]) []
    [("mut_rate", VFloat "0.1"); ("uniform", VBool false)].

(* lines 74-75 *)
Definition mave_call (mut_generator kipoi_predictor n : value) : call :=
  Invoke (module_value ["mave"; "InSilicoMAVE"]) [mut_generator]
    [("mut_predictor", kipoi_predictor); ("seq_length", n);
     ("mut_window", VList [VInt 0; n]); ("context_agnostic", VBool true)].

(* line 76 *)
Definition generate_call (mave x : value) : call :=
  Invoke (VAttr mave "generate") [x] [("num_sim", VInt 10000)].

(* lines 79 and 116 *)
Definition print_call (args : list value) : call :=
  Invoke (VAttr (VModule "builtins") "print") args [].

(* lines 80-81 *)
Definition save_call (p : string) (arr : value) : call :=
  Invoke (module_value ["numpy"; "save"]) [VStr p; arr] [].

(** The calls of STEP 2. *)

(* lines 93-94 *)
Definition load_call (np : value) (p : string) : call :=
  Invoke (VAttr np "load") [VStr p] [].

(* lines 97-102 *)
Definition surrogate_call (x_shape num_tasks : value) : call :=
  Invoke (module_value ["squid"; "surrogate_zoo"; "SurrogateMAVENN"]) [x_shape]
    [("num_tasks", num_tasks); ("gpmap", VStr "additive");
     ("regression_type", VStr "GE"); ("linearity", VStr "nonlinear");
     ("noise", VStr "SkewedT"); ("noise_order", VInt 2);
     ("reg_strength", VFloat "0.1"); ("alphabet", acgt);
     ("deduplicate", VBool true); ("gpu", VBool false)].

(* lines 105-107 *)
Definition train_call (surrogate_model x_mut y_mut : value) : call :=
  Invoke (VAttr surrogate_model "train") [x_mut; y_mut]
    [("learning_rate", VFloat "5e-4"); ("epochs", VInt 500);
     ("batch_size", VInt 100); ("early_stopping", VBool true);
     ("patience", VInt 25); ("restore_best_weights", VBool true);
     ("save_dir", VNone); ("verbose", VInt 1)].

(* line 110 *)
Definition get_params_call (surrogate_model : value) : call :=
  Invoke (VAttr surrogate_model "get_params") [] [("gauge", VStr "empirical")].

(* line 113 *)
Definition get_logo_call (cfg : config) (surrogate_model : value) : call :=
  Invoke (VAttr surrogate_model "get_logo") []
    [("mut_window", motif_window cfg); ("full_length", VInt (seq_length cfg))].

(* line 115 *)
Definition arr2pd_call (logo : value) : call :=
  Invoke (module_value ["squid"; "utils"; "arr2pd"]) [logo; acgt] [].

(* line 117 *)
Definition to_csv_call (w : world) (logo_df : value) : call :=
  Invoke (VAttr logo_df "to_csv") [VStr (logo_path w)] [].

(* line 120 *)
Definition plot_call (cfg : config) (w : world) (logo : value) : call :=
  Invoke (module_value ["squid"; "impress"; "plot_additive_logo"]) [logo]
    [("center", VBool true); ("view_window", motif_window cfg);
     ("alphabet", acgt); ("fig_size", VList [VInt 20; VFloat "2.5"]);
     ("save_dir", VStr (save_dir_of w))].

(** A run's calls by name, in order. *)
Definition step_of (c : call) : string :=
  match c with
  | Import m => "import " +:+ String.concat "." m
  | Invoke (VAttr _ a) _ _ => a
  | Invoke _ _ _ => "()"
  | GetAttr _ a => "." +:+ a
  | SetAttr _ a _ => "." +:+ a +:+ "="
  end.

Definition steps (t : list entry) : list string := map (fun e => step_of (fst e)) t.

(** Lines 34-35 and 51-81; [made]: the directory had to be created,
    [asked]: [len(x)] went through [x.__len__]. *)
Definition step1_steps (made asked : bool) : list string :=
  (["exists"] ++ (if made then ["makedirs"] else []) ++
   ["import kipoi"; "import numpy"; "import utils"; "import predictor";
    "import mutagenizer"; "import mave";
    "seq2oh"; "get_model"; "BPNetPredictor"; "RandomMutagenesis"] ++
   (if asked then ["__len__"] else []) ++
   ["InSilicoMAVE"; "generate"; "print"; "save"; "save"])%list.

(** Lines 34-35 and 85-120. *)
Definition step2_steps (made : bool) : list string :=
  (["exists"] ++ (if made then ["makedirs"] else []) ++
   ["import mavenn"; "import squid"; "import matplotlib.pyplot";
    "load"; "load"; ".shape"; ".shape"; "SurrogateMAVENN"; "train";
    "get_params"; "get_logo"; "arr2pd"; "print"; "to_csv";
    "plot_additive_logo"])%list.

(** Every call of the trace was answered without an exception. *)
Definition all_ok (t : list entry) : bool := forallb (fun e => is_ok (snd e)) t.

(** How every run of the script passes values from call to call. *)
Record flow (cfg : config) (w : world) (extra : gmap string value)
    (disk : gmap string node) (r : outcome unit * state) : Prop := {
  (* lines 17-18 and 53-54 *)
  flow_bytecode : sys_attrs (snd r) !! "dont_write_bytecode" = Some (VBool true);
  flow_sys_path :
    sys_attrs (snd r) !! "path"
    = Some (VList (if imported ["utils"] (trace (snd r))
                   then (VStr <$> sys_path w) ++ [VStr (squid_dir w)]
                   else VStr <$> sys_path w));
  flow_imports : imports_within (phase_modules cfg) (trace (snd r)) = true;
  (* STEP 1 *)
  flow_seq2oh : forall c a,
    (c, a) ∈ trace (snd r) -> names c "seq2oh" = true -> c = seq2oh_call cfg;
  flow_predictor : forall c a,
    (c, a) ∈ trace (snd r) -> names c "BPNetPredictor" = true ->
    exists model,
      (get_model_call, Ok model) ∈ trace (snd r) /\ c = predictor_call model;
  flow_mave : forall c a,
    (c, a) ∈ trace (snd r) -> names c "InSilicoMAVE" = true ->
    exists model g p n,
      (mutagenizer_call, Ok g) ∈ trace (snd r) /\
      (predictor_call model, Ok p) ∈ trace (snd r) /\
      c = mave_call g p n;
  flow_generate : forall c a,
    (c, a) ∈ trace (snd r) -> names c "generate" = true ->
    exists g p n o x,
      (mave_call g p n, Ok o) ∈ trace (snd r) /\
      (seq2oh_call cfg, Ok x) ∈ trace (snd r) /\
      c = generate_call o x;
  flow_save : forall c a,
    (c, a) ∈ trace (snd r) -> names c "save" = true ->
    exists o x res xm ym,
      (generate_call o x, Ok res) ∈ trace (snd r) /\
      as_pair res = Ok (xm, ym) /\
      (c = save_call (x_mut_path w) xm \/ c = save_call (y_mut_path w) ym);
  flow_saved :
    fst r = Ok tt -> selects_step1 cfg = true ->
    exists o x res xm ym,
      (generate_call o x, Ok res) ∈ trace (snd r) /\
      as_pair res = Ok (xm, ym) /\
      fs (snd r) !! x_mut_path w = Some (File xm) /\
      fs (snd r) !! y_mut_path w = Some (File ym);
  flow_unpack : forall c a,
    (c, a) ∈ trace (snd r) ->
    (names c "generate" || names c "train")%bool = true ->
    match a with
    | Ok res =>
        match as_pair res with
        | Raise e =>
            fst r = Raise e /\ last (trace (snd r)) = Some (c, a) /\
            called "save" (trace (snd r)) = false
        | Ok _ => True
        end
    | Raise _ => True
    end;
  flow_own : forall e,
    fst r = Raise e -> all_ok (trace (snd r)) = true ->
    (e = NameError "np" /\ extra !! "np" = None /\ selects_step1 cfg = false) \/
    (exists c res,
       last (trace (snd r)) = Some (c, Ok res) /\
       (names c "generate" || names c "train")%bool = true /\
       as_pair res = Raise e) \/
    (exists o sy,
       last (trace (snd r)) = Some (GetAttr o "shape", Ok sy) /\
       index sy (VInt 1) = Raise e);
  flow_step1_done :
    fst r = Ok tt -> selects_step1 cfg = true ->
    exists asked,
      steps (trace (snd r))
      = step1_steps (negb (bool_decide (is_Some (disk !! save_dir_of w)))) asked;
  (* STEP 2 *)
  flow_load : forall c a,
    (c, a) ∈ trace (snd r) -> names c "load" = true ->
    exists np p,
      extra !! "np" = Some np /\
      c = load_call np p /\
      (p = x_mut_path w \/ p = y_mut_path w) /\
      (np = VModule "numpy" ->
       (forall v, disk !! p = Some (File v) -> a = Ok v) /\
       (disk !! p = None -> a = Raise (FileNotFoundError p)));
  flow_reached : forall np,
    reached_np_load (trace (snd r)) = true -> extra !! "np" = Some np ->
    exists a, (load_call np (x_mut_path w), a) ∈ trace (snd r);
  flow_surrogate : forall c a,
    (c, a) ∈ trace (snd r) -> names c "SurrogateMAVENN" = true ->
    exists np vx vy sx sy n,
      (load_call np (x_mut_path w), Ok vx) ∈ trace (snd r) /\
      (load_call np (y_mut_path w), Ok vy) ∈ trace (snd r) /\
      (GetAttr vx "shape", Ok sx) ∈ trace (snd r) /\
      (GetAttr vy "shape", Ok sy) ∈ trace (snd r) /\
      index sy (VInt 1) = Ok n /\
      c = surrogate_call sx n;
  flow_train : forall c a,
    (c, a) ∈ trace (snd r) -> names c "train" = true ->
    exists np vx vy sx n sm,
      (load_call np (x_mut_path w), Ok vx) ∈ trace (snd r) /\
      (load_call np (y_mut_path w), Ok vy) ∈ trace (snd r) /\
      (surrogate_call sx n, Ok sm) ∈ trace (snd r) /\
      c = train_call sm vx vy;
  flow_params : forall c a,
    (c, a) ∈ trace (snd r) ->
    (names c "get_params" || names c "get_logo")%bool = true ->
    exists sx n sm vx vy res,
      (surrogate_call sx n, Ok sm) ∈ trace (snd r) /\
      (train_call sm vx vy, Ok res) ∈ trace (snd r) /\
      (c = get_params_call sm \/
       (exists ps, (get_params_call sm, Ok ps) ∈ trace (snd r)) /\
       c = get_logo_call cfg sm);
  flow_logo_out : forall c a,
    (c, a) ∈ trace (snd r) ->
    (names c "arr2pd" || names c "to_csv" || names c "plot_additive_logo")%bool = true ->
    exists sm logo,
      (get_logo_call cfg sm, Ok logo) ∈ trace (snd r) /\
      (c = arr2pd_call logo \/
       exists df pr,
         (arr2pd_call logo, Ok df) ∈ trace (snd r) /\
         (print_call [df], Ok pr) ∈ trace (snd r) /\
         (c = to_csv_call w df \/
          (exists csv, (to_csv_call w df, Ok csv) ∈ trace (snd r)) /\
          c = plot_call cfg w logo));
  flow_step2_done :
    fst r = Ok tt -> selects_step1 cfg = false ->
    steps (trace (snd r))
    = step2_steps (negb (bool_decide (is_Some (disk !! save_dir_of w))));
}.

(** The two runs of the docstring in the first laboratory. *)
Definition step1_trace : list entry := trace (snd (run as_written lab [] ∅)).

Definition step2_trace : list entry :=
  trace (snd (run_from step2_config lab [] with_numpy disk_after_step1)).

Definition nth_entry (k : nat) (t : list entry) : entry :=
  nth k t (Import [], Ok VNone).

(** [generate] returns three arrays instead of two. *)
Definition triple_lab : world :=
  mkWorld lab_file (fun p => p)
    (fun tr c => if names c "generate"
                 then Ok (VList [VObj 1; VObj 2; VObj 3])
                 else lab_answer tr c)
    lab_sys_path.

(** [y_mut] is one-dimensional: its [shape] has a single entry. *)
Definition flat_lab : world :=
  mkWorld lab_file (fun p => p)
    (fun tr c => match c with
                 | GetAttr _ _ => Ok (VList [VInt 10000])
                 | _ => lab_answer tr c
                 end)
    lab_sys_path.

End Flow.
Export Flow.

Arguments str_mul : simpl never.
Arguments str_slice_to : simpl never.
Arguments len_str : simpl never.
Arguments OsPath.join : simpl never.
Arguments OsPath.dirname : simpl never.

(** * Reasoning about runs *)


(** ** Reasoning about computations *)

Create HintDb py.
#[local] Hint Unfold header settings output_dir motif step1 step2 prologue script
  os_path_join qual assign import_ import_as import_std call_ attr read_attr set_attr
  len_ int_ print_ not_ skip expr if_ unpack2 list_ binop unop lit str int float : py.

(** Case analysis on the innermost scrutinee of the goal. *)
Ltac inner_case :=
  match goal with
  | |- context [match ?x with _ => _ end] =>
      lazymatch x with
      | context [match _ with _ => _ end] => fail
      | _ => destruct x eqn:?
      end
  end.

Lemma names_eqb_eq p q : names_eqb p q = true -> p = q.
Proof.
  revert q. induction p as [|x p IH]; intros [|y q]; cbn; try done.
  intros [Hx Hp]%andb_prop. apply String.eqb_eq in Hx. f_equal; auto.
Qed.

Lemma is_fn_attr_last v a q : is_fn (VAttr v a) q = true -> List.last q "" = a.
Proof.
  unfold is_fn. cbn. destruct (qualname v) as [p|]; [|done].
  intros <-%names_eqb_eq. apply last_last.
Qed.

Lemma invoke_method v a args kwargs :
  modelled_name a = false ->
  invoke (VAttr v a) args kwargs = ask (Invoke (VAttr v a) args kwargs).
Proof.
  intros Hm. unfold invoke.
  repeat match goal with
  | |- context [is_fn (VAttr v a) ?q] =>
      let E := fresh in
      destruct (is_fn (VAttr v a) q) eqn:E;
      [apply is_fn_attr_last in E; cbn in E; subst a; discriminate Hm|]
  end.
  reflexivity.
Qed.

Lemma lookup_binds l base x :
  binds l base !! x = match lookup_key x l with Some v => Some v | None => base !! x end.
Proof.
  induction l as [|[y v] l IH]; cbn; [reflexivity|].
  destruct (String.eqb_spec x y) as [->|Hne].
  - apply lookup_insert_eq.
  - rewrite lookup_insert_ne by congruence. exact IH.
Qed.

(** *** Properties every primitive has and [bind] preserves

    The script is built from nine primitives with [bind], [if] and a
    match on an optional length; a property closed under these holds of
    the whole script. *)

Section Closure.

Variable P : forall A, M A -> Prop.
Hypothesis P_ret : forall A (a : A), P A (ret a).
Hypothesis P_raise : forall A e, P A (raise e).
Hypothesis P_lift : forall A o, P A (lift o).
Hypothesis P_bind :
  forall A B (m : M A) (k : A -> M B), P A m -> (forall a, P B (k a)) -> P B (bind m k).
Hypothesis P_var : forall x, P value (var x).
Hypothesis P_bind_name : forall x v, P unit (bind_name x v).
Hypothesis P_update_sys : forall x v, P unit (update_sys x v).
Hypothesis P_ask : forall c, P value (ask c).
Hypothesis P_invoke : forall f args kwargs, P value (invoke f args kwargs).

Ltac close_step :=
  first
  [ apply P_bind; [|intros ?]
  | apply P_ret | apply P_raise | apply P_lift | apply P_var
  | apply P_bind_name | apply P_update_sys | apply P_ask | apply P_invoke
  | match goal with
    | |- P _ (if ?b then _ else _) => destruct b
    | |- P _ (match ?o with Some _ => _ | None => _ end) => destruct o
    end ].

Ltac close := autounfold with py; cbn [eval_all eval_kwargs fold_left]; repeat close_step.

Lemma closed_prologue cfg : P unit (prologue cfg).
Proof. unfold prologue. close. Qed.

Lemma closed_step1 : P unit step1.
Proof. unfold step1. close. Qed.

Lemma closed_step2 : P unit step2.
Proof. unfold step2. close. Qed.

Lemma closed_script cfg : P unit (script cfg).
Proof.
  unfold script, if_, int. apply P_bind; [apply closed_prologue|intros _].
  apply P_bind; [apply P_ret|intros v].
  destruct (truthy v); [apply closed_step1 | apply closed_step2].
Qed.

End Closure.

Lemma tidy_nil : tidy [].
Proof. constructor. Qed.

Lemma tidy_snoc t c v : tidy t -> tidy (t ++ [(c, Ok v)])%list.
Proof. intros Ht. apply Forall_app. split; [exact Ht|repeat constructor]. Qed.

Lemma faithful_log {A} (c : call) (r : outcome value) (o : outcome A) s :
  tidy (trace s) ->
  match r, o with
  | Ok _, Ok _ => True
  | Raise e, Raise e' => e = e'
  | _, _ => False
  end ->
  match (o, log c r s) with
  | (Ok _, s') => tidy (trace s')
  | (Raise e, s') =>
      tidy (trace s') \/ exists t c, trace s' = (t ++ [(c, Raise e)])%list /\ tidy t
  end.
Proof.
  intros Ht. destruct r as [v|e], o as [a|e']; try done.
  - intros _. apply tidy_snoc, Ht.
  - intros ->. right. exists (trace s), c. done.
Qed.

Lemma faithful_ret {A} (a : A) : faithful (ret a).
Proof. intros w s Ht. exact Ht. Qed.

Lemma faithful_raise {A} e : faithful (@raise A e).
Proof. intros w s Ht. left. exact Ht. Qed.

Lemma faithful_lift {A} (o : outcome A) : faithful (lift o).
Proof. intros w s Ht. unfold lift. destruct o; [|left]; exact Ht. Qed.

Lemma faithful_bind {A B} (m : M A) (k : A -> M B) :
  faithful m -> (forall a, faithful (k a)) -> faithful (bind m k).
Proof.
  intros Hm Hk w s Ht. unfold bind. specialize (Hm w s Ht).
  destruct (m w s) as [[a|e] s']; [apply Hk, Hm | exact Hm].
Qed.

Lemma faithful_var x : faithful (var x).
Proof. intros w s Ht. unfold var. destruct (globals s !! x); [|left]; exact Ht. Qed.

Lemma faithful_bind_name x v : faithful (bind_name x v).
Proof. intros w s Ht. exact Ht. Qed.

Lemma faithful_update_sys x v : faithful (update_sys x v).
Proof. intros w s Ht. exact Ht. Qed.

Lemma faithful_ask c : faithful (ask c).
Proof.
  intros w s Ht. unfold ask. cbv zeta.
  apply faithful_log; [exact Ht|]. destruct (respond w (trace s) c); done.
Qed.

Lemma faithful_record c r : faithful (record c r).
Proof.
  intros w s Ht. unfold record. apply faithful_log; [exact Ht|]. destruct r; done.
Qed.

Lemma faithful_invoke f args kwargs : faithful (invoke f args kwargs).
Proof.
  unfold invoke.
  repeat match goal with
  | |- faithful (if ?b then _ else _) => destruct b
  | |- faithful (match ?x with _ => _ end) => destruct x
  end;
  try apply faithful_ret; try apply faithful_raise; try apply faithful_ask.
  all: intros ?w ?s Ht; cbv beta; unfold record.
  all: repeat inner_case; cbn.
  all: first [ exact Ht | left; exact Ht | apply tidy_snoc, Ht
             | right; eexists _, _; split; [reflexivity|exact Ht] ].
Qed.

Lemma faithful_script cfg : faithful (script cfg).
Proof.
  apply (closed_script (@faithful));
    first [ exact @faithful_ret | exact @faithful_raise | exact @faithful_lift
          | exact @faithful_bind | exact faithful_var | exact faithful_bind_name
          | exact faithful_update_sys | exact faithful_ask | exact faithful_invoke ].
Qed.

Lemma tidy_no_raise t pre c e post :
  tidy t -> t <> (pre ++ (c, Raise e) :: post)%list.
Proof.
  intros Ht ->. apply Forall_app in Ht as [_ Ht]. inversion Ht as [|? ? Hr _]. discriminate Hr.
Qed.

Lemma raise_is_last t c e pre c' e' post :
  tidy t -> (t ++ [(c, Raise e)])%list = (pre ++ (c', Raise e') :: post)%list ->
  post = [] /\ e' = e.
Proof.
  intros Ht Heq. destruct post as [|x post _] using rev_ind.
  - apply app_inj_tail in Heq as [_ Heq]. inversion Heq. done.
  - exfalso. rewrite app_comm_cons, app_assoc in Heq.
    apply app_inj_tail in Heq as [Heq _].
    exact (tidy_no_raise _ _ _ _ _ Ht Heq).
Qed.

(** *** [sys.argv] is never read *)

Lemma same_refl s : same_but_argv s s.
Proof. done. Qed.

Lemma secure_ret {A} (a : A) : secure (ret a).
Proof. intros w s1 s2 Hs. done. Qed.

Lemma secure_raise {A} e : secure (@raise A e).
Proof. intros w s1 s2 Hs. done. Qed.

Lemma secure_lift {A} (o : outcome A) : secure (lift o).
Proof. intros w s1 s2 Hs. done. Qed.

Lemma secure_bind {A B} (m : M A) (k : A -> M B) :
  secure m -> (forall a, secure (k a)) -> secure (bind m k).
Proof.
  intros Hm Hk w s1 s2 Hs. unfold bind. destruct (Hm w s1 s2 Hs) as [Ho Hs'].
  destruct (m w s1) as [[a|e] s1'], (m w s2) as [[a'|e'] s2']; cbn in *; try done.
  - injection Ho as <-. apply Hk, Hs'.
  - injection Ho as <-. done.
Qed.

Lemma secure_var x : secure (var x).
Proof.
  intros w s1 s2 Hs. unfold var. destruct Hs as (Hg & ?). rewrite <- Hg.
  destruct (globals s1 !! x); done.
Qed.

Lemma secure_bind_name x v : secure (bind_name x v).
Proof.
  intros w [g1 a1 f1 t1] [g2 a2 f2 t2] (Hg & Hf & Ht & Ha); cbn in *; subst. done.
Qed.

Lemma secure_update_sys x v : secure (update_sys x v).
Proof.
  intros w [g1 a1 f1 t1] [g2 a2 f2 t2] (Hg & Hf & Ht & Ha); cbn in *; subst.
  split; [done|]. repeat split; cbn.
  destruct (decide (x = "argv")) as [->|Hx].
  - by rewrite !delete_insert_eq.
  - rewrite !delete_insert_ne by done. by rewrite Ha.
Qed.

Lemma secure_ask c : secure (ask c).
Proof.
  intros w [g1 a1 f1 t1] [g2 a2 f2 t2] (Hg & Hf & Ht & Ha); cbn in *; subst.
  unfold ask; cbn. done.
Qed.

Lemma secure_invoke f args kwargs : secure (invoke f args kwargs).
Proof.
  unfold invoke.
  repeat match goal with
  | |- secure (if ?b then _ else _) => destruct b
  | |- secure (match ?x with _ => _ end) => destruct x
  end;
  try apply secure_ret; try apply secure_raise; try apply secure_ask.
  all: intros ?w [g1 a1 f1 t1] [g2 a2 f2 t2] (Hg & Hf & Ht & Ha); cbn in *; subst.
  all: unfold record; cbn.
  all: try (assert (a1 !! "path" = a2 !! "path") as <-
            by (rewrite <- (lookup_delete_ne a1 "argv" "path"), <- (lookup_delete_ne a2 "argv" "path") by done;
                by rewrite Ha)).
  all: repeat inner_case; cbn; try done.
  all: split; [done|]; repeat split; cbn.
  all: rewrite !delete_insert_ne by done; by rewrite Ha.
Qed.

Lemma secure_script cfg : secure (script cfg).
Proof.
  apply (closed_script (@secure));
    first [ exact @secure_ret | exact @secure_raise | exact @secure_lift
          | exact @secure_bind | exact secure_var | exact secure_bind_name
          | exact secure_update_sys | exact secure_ask | exact secure_invoke ].
Qed.

(** *** Weakest preconditions

    One rule per primitive.  The namespace and the trace of the state are
    kept behind equations [g = binds l base] and [t = l], so that goals
    stay small while a run is followed statement by statement. *)

Section WpRules.
Context {B : Type} (w : world) (Q : outcome B * state -> Prop).

Lemma wp_bind {A} (m : M A) (k : A -> M B) s :
  wp m w s (fun r => match r with
                     | (Ok a, s') => wp (k a) w s' Q
                     | (Raise e, s') => Q (Raise e, s')
                     end) ->
  wp (bind m k) w s Q.
Proof. unfold wp, bind. destruct (m w s) as [[a|e] s']; auto. Qed.

Lemma wp_ret (b : B) s : Q (Ok b, s) -> wp (ret b) w s Q.
Proof. auto. Qed.

Lemma wp_raise e s : Q (Raise e, s) -> wp (raise e) w s Q.
Proof. auto. Qed.

Lemma wp_lift (o : outcome B) b s : o = Ok b -> Q (Ok b, s) -> wp (lift o) w s Q.
Proof. intros ->. auto. Qed.

Lemma wp_lift_cases (o : outcome B) s :
  (forall b, o = Ok b -> Q (Ok b, s)) ->
  (forall e, o = Raise e -> Q (Raise e, s)) ->
  wp (lift o) w s Q.
Proof. destruct o; unfold wp, lift; auto. Qed.

End WpRules.

Section WpValueRules.
Context (w : world) (Q : outcome value * state -> Prop).

Lemma wp_var x v l base g a f t :
  g = binds l base ->
  lookup_key x l = Some v ->
  Q (Ok v, mkState g a f t) ->
  wp (var x) w (mkState g a f t) Q.
Proof. intros ->. unfold wp, var; cbn. rewrite lookup_binds. intros ->. auto. Qed.

Lemma wp_var_base x l base g a f t :
  g = binds l base ->
  lookup_key x l = None ->
  (forall v, base !! x = Some v -> Q (Ok v, mkState g a f t)) ->
  (base !! x = None -> Q (Raise (NameError x), mkState g a f t)) ->
  wp (var x) w (mkState g a f t) Q.
Proof.
  intros ->. unfold wp, var; cbn. rewrite lookup_binds. intros -> Hsome Hnone.
  destruct (base !! x) as [v|] eqn:E; [apply (Hsome v) | apply Hnone]; reflexivity.
Qed.

Lemma wp_var_known x v l base g a f t :
  g = binds l base ->
  lookup_key x l = None ->
  base !! x = Some v ->
  Q (Ok v, mkState g a f t) ->
  wp (var x) w (mkState g a f t) Q.
Proof. intros ->. unfold wp, var; cbn. rewrite lookup_binds. intros -> ->. auto. Qed.

Lemma wp_ask c l g a f t :
  t = l ->
  (forall v t', t' = (l ++ [(c, Ok v)])%list -> Q (Ok v, mkState g a f t')) ->
  (forall e t', t' = (l ++ [(c, Raise e)])%list -> Q (Raise e, mkState g a f t')) ->
  wp (ask c) w (mkState g a f t) Q.
Proof.
  intros -> Hok Herr. unfold wp, ask. cbn.
  destruct (respond w l c) as [v|e]; [apply (Hok v) | apply (Herr e)]; reflexivity.
Qed.

Lemma wp_method v n args kwargs l g a f t :
  modelled_name n = false ->
  t = l ->
  (forall r t', t' = (l ++ [(Invoke (VAttr v n) args kwargs, Ok r)])%list ->
     Q (Ok r, mkState g a f t')) ->
  (forall e t', t' = (l ++ [(Invoke (VAttr v n) args kwargs, Raise e)])%list ->
     Q (Raise e, mkState g a f t')) ->
  wp (invoke (VAttr v n) args kwargs) w (mkState g a f t) Q.
Proof. intros Hm. rewrite (invoke_method _ _ _ _ Hm). apply wp_ask. Qed.

Lemma wp_abspath p s :
  Q (Ok (VStr (abspath w p)), s) ->
  wp (invoke (VAttr (VAttr (VModule "os") "path") "abspath") [VStr p] []) w s Q.
Proof. auto. Qed.

Lemma wp_dirname p s :
  Q (Ok (VStr (OsPath.dirname p)), s) ->
  wp (invoke (VAttr (VAttr (VModule "os") "path") "dirname") [VStr p] []) w s Q.
Proof. auto. Qed.

Lemma wp_join a b s :
  Q (Ok (VStr (OsPath.join a b)), s) ->
  wp (invoke (VAttr (VAttr (VModule "os") "path") "join") [VStr a; VStr b] []) w s Q.
Proof. auto. Qed.

Lemma wp_exists p l g a f t :
  let c := Invoke (VAttr (VAttr (VModule "os") "path") "exists") [VStr p] [] in
  t = l ->
  (is_Some (f !! p) -> forall t', t' = (l ++ [(c, Ok (VBool true))])%list ->
     Q (Ok (VBool true), mkState g a f t')) ->
  (f !! p = None -> forall t', t' = (l ++ [(c, Ok (VBool false))])%list ->
     Q (Ok (VBool false), mkState g a f t')) ->
  wp (invoke (VAttr (VAttr (VModule "os") "path") "exists") [VStr p] []) w (mkState g a f t) Q.
Proof.
  intros c -> Hyes Hno.
  change (Q (Ok (VBool (bool_decide (is_Some (f !! p)))),
             mkState g a f (l ++ [(c, Ok (VBool (bool_decide (is_Some (f !! p)))))]))).
  destruct (f !! p) eqn:E; [apply Hyes; eauto | apply Hno; reflexivity].
Qed.

Lemma wp_makedirs p l g a f t :
  let c := Invoke (VAttr (VModule "os") "makedirs") [VStr p] [] in
  f !! p = None ->
  t = l ->
  (forall t', t' = (l ++ [(c, Ok VNone)])%list ->
     Q (Ok VNone, mkState g a (<[p:=Dir]> f) t')) ->
  (forall e t', t' = (l ++ [(c, Raise e)])%list -> Q (Raise e, mkState g a f t')) ->
  wp (invoke (VAttr (VModule "os") "makedirs") [VStr p] []) w (mkState g a f t) Q.
Proof.
  intros c Hf -> Hok Herr. unfold wp.
  change (invoke _ _ _ w _) with
    (match f !! p with
     | Some _ => record c (Raise (FileExistsError p)) w (mkState g a f l)
     | None =>
         match respond w l c with
         | Ok _ => (Ok VNone, mkState g a (<[p:=Dir]> f) (l ++ [(c, Ok VNone)]))
         | Raise e => (Raise e, mkState g a f (l ++ [(c, Raise e)]))
         end
     end).
  rewrite Hf. destruct (respond w l c) as [r|e]; [apply Hok | apply (Herr e)]; reflexivity.
Qed.

Lemma wp_sys_path_append v l g a f t :
  a !! "path" = Some (VList l) ->
  Q (Ok VNone, mkState g (<["path":=VList (l ++ [v])]> a) f t) ->
  wp (invoke (VAttr (VAttr (VModule "sys") "path") "append") [v] []) w (mkState g a f t) Q.
Proof.
  intros Ha Hk. unfold wp.
  change (invoke _ _ _ w _) with
    (match a !! "path" with
     | Some (VList l) => (Ok VNone, mkState g (<["path":=VList (l ++ [v])]> a) f t)
     | _ => (Raise (TypeError "append"), mkState g a f t)
     end).
  rewrite Ha. exact Hk.
Qed.

Lemma wp_np_save p arr l g a f t :
  let c := Invoke (VAttr (VModule "numpy") "save") [VStr p; arr] [] in
  t = l ->
  (forall t', t' = (l ++ [(c, Ok VNone)])%list ->
     Q (Ok VNone, mkState g a (<[p:=File arr]> f) t')) ->
  (forall e t', t' = (l ++ [(c, Raise e)])%list -> Q (Raise e, mkState g a f t')) ->
  wp (invoke (VAttr (VModule "numpy") "save") [VStr p; arr] []) w (mkState g a f t) Q.
Proof.
  intros c -> Hok Herr. unfold wp.
  change (invoke _ _ _ w _) with
    (match respond w l c with
     | Ok _ => (Ok VNone, mkState g a (<[p:=File arr]> f) (l ++ [(c, Ok VNone)]))
     | Raise e => (Raise e, mkState g a f (l ++ [(c, Raise e)]))
     end).
  destruct (respond w l c) as [r|e]; [apply Hok | apply (Herr e)]; reflexivity.
Qed.

Lemma wp_load v p l g a f t :
  let c := Invoke (VAttr v "load") [VStr p] [] in
  t = l ->
  (is_fn (VAttr v "load") ["numpy"; "load"] = true ->
   forall x, f !! p = Some (File x) -> forall t', t' = (l ++ [(c, Ok x)])%list ->
     Q (Ok x, mkState g a f t')) ->
  (is_fn (VAttr v "load") ["numpy"; "load"] = true ->
   forall t', t' = (l ++ [(c, Raise (FileNotFoundError p))])%list ->
     Q (Raise (FileNotFoundError p), mkState g a f t')) ->
  (is_fn (VAttr v "load") ["numpy"; "load"] = false ->
   forall r t', t' = (l ++ [(c, Ok r)])%list -> Q (Ok r, mkState g a f t')) ->
  (is_fn (VAttr v "load") ["numpy"; "load"] = false ->
   forall e t', t' = (l ++ [(c, Raise e)])%list -> Q (Raise e, mkState g a f t')) ->
  wp (invoke (VAttr v "load") [VStr p] []) w (mkState g a f t) Q.
Proof.
  intros c -> Hfile Hmissing Hok Herr. unfold invoke.
  repeat match goal with
  | |- context [is_fn (VAttr v "load") ?q] =>
      lazymatch q with
      | ["numpy"; "load"] => fail
      | _ =>
          let E := fresh in
          destruct (is_fn (VAttr v "load") q) eqn:E;
          [apply is_fn_attr_last in E; discriminate E|]
      end
  end.
  destruct (is_fn (VAttr v "load") ["numpy"; "load"]) eqn:E.
  - unfold wp, record; cbn.
    destruct (f !! p) as [[|x]|] eqn:Ef;
      [ apply (Hmissing eq_refl _ eq_refl)
      | apply (Hfile eq_refl x eq_refl _ eq_refl)
      | apply (Hmissing eq_refl _ eq_refl) ].
  - eapply wp_ask; [reflexivity | apply (Hok eq_refl) | apply (Herr eq_refl)].
Qed.

End WpValueRules.

Section WpUnitRules.
Context (w : world) (Q : outcome unit * state -> Prop).

Lemma wp_bind_name x v l base g a f t :
  g = binds l base ->
  (forall g', g' = binds ((x, v) :: l) base -> Q (Ok tt, mkState g' a f t)) ->
  wp (bind_name x v) w (mkState g a f t) Q.
Proof. intros -> H. apply H. reflexivity. Qed.

Lemma wp_update_sys x v g a f t :
  Q (Ok tt, mkState g (<[x:=v]> a) f t) ->
  wp (update_sys x v) w (mkState g a f t) Q.
Proof. auto. Qed.

End WpUnitRules.

Ltac lookup_tac :=
  repeat first [rewrite lookup_insert_eq | rewrite lookup_insert_ne by done | rewrite lookup_empty].

Ltac with_trace tac :=
  lazymatch goal with
  | |- wp _ _ (mkState _ _ _ ?t) _ =>
      match goal with H : t = _ |- _ => tac t H end
  end.

Ltac with_globals tac :=
  lazymatch goal with
  | |- wp _ _ (mkState ?g _ _ _) _ =>
      match goal with H : g = _ |- _ => tac g H end
  end.

Ltac next_trace t H :=
  let t' := fresh "t" in let Ht' := fresh "Ht" in
  intros t' Ht'; cbn [app] in Ht'; clear H; clear t.

Ltac next_globals g H :=
  let g' := fresh "g" in let Hg' := fresh "Hg" in
  intros g' Hg'; clear H; clear g.

Ltac wp_invoke f :=
  lazymatch f with
  | VAttr (VAttr (VModule "os") "path") "abspath" => apply wp_abspath
  | VAttr (VAttr (VModule "os") "path") "dirname" => apply wp_dirname
  | VAttr (VAttr (VModule "os") "path") "join" => apply wp_join
  | VAttr (VAttr (VModule "os") "path") "exists" =>
      with_trace ltac:(fun t H =>
        eapply wp_exists;
        [exact H | intros ?Hdir; next_trace t H | intros ?Hdir; next_trace t H])
  | VAttr (VModule "os") "makedirs" =>
      with_trace ltac:(fun t H =>
        eapply wp_makedirs;
        [assumption | exact H | next_trace t H | intros ?; next_trace t H])
  | VAttr (VAttr (VModule "sys") "path") "append" =>
      eapply wp_sys_path_append; [lookup_tac; reflexivity|]; cbn [app]
  | VAttr (VModule "numpy") "save" =>
      with_trace ltac:(fun t H =>
        eapply wp_np_save; [exact H | next_trace t H | intros ?; next_trace t H])
  | VAttr _ "load" =>
      with_trace ltac:(fun t H =>
        eapply wp_load;
        [ exact H
        | intros ?Hnumpy ? ?Hfile; next_trace t H
        | intros ?Hnumpy; next_trace t H
        | intros ?Hnumpy ?; next_trace t H
        | intros ?Hnumpy ?; next_trace t H ])
  | VAttr _ _ =>
      with_trace ltac:(fun t H =>
        eapply wp_method;
        [reflexivity | exact H | intros ?; next_trace t H | intros ?; next_trace t H])
  end.

Ltac wp_unfold m :=
  lazymatch m with
  | script _ => unfold script
  | prologue _ => unfold prologue
  | header => unfold header
  | settings => unfold settings
  | output_dir => unfold output_dir
  | motif _ => unfold motif
  | step1 => unfold step1
  | step2 => unfold step2
  | _ =>
      let m1 := eval cbv beta delta
        [os_path_join qual assign import_ import_as import_std call_ attr read_attr
         set_attr len_ int_ print_ not_ skip expr if_ unpack2 list_ binop unop lit
         str int float] in m in
      let m2 := eval cbn [eval_all eval_kwargs fold_left module_value] in m1 in
      progress change m with m2
  end.

Ltac wp_step :=
  lazymatch goal with
  | |- wp ?m ?w ?s ?Q =>
    lazymatch m with
    | bind _ _ => apply wp_bind
    | ret _ => apply wp_ret
    | raise _ => apply wp_raise
    | bind_name _ _ =>
        with_globals ltac:(fun g H => eapply wp_bind_name; [exact H | next_globals g H])
    | update_sys _ _ => apply wp_update_sys
    | var _ =>
        with_globals ltac:(fun g Hg =>
          first [ eapply wp_var; [exact Hg | reflexivity |]
                | eapply wp_var_known; [exact Hg | reflexivity | eassumption |]
                | let H := fresh "Hvar" in
                  eapply wp_var_base; [exact Hg | reflexivity | intros ? H | intros H] ])
    | lift (as_pair _) =>
        let H := fresh "Hpair" in
        apply wp_lift_cases; [intros [? ?] H | intros ? H]; cbn [fst snd]
    | lift _ =>
        first [ eapply wp_lift; [reflexivity|]
              | apply wp_lift_cases; [intros ? _ | intros ? _] ]
    | ask _ =>
        with_trace ltac:(fun t H =>
          eapply wp_ask; [exact H | intros ?; next_trace t H | intros ?; next_trace t H])
    | invoke ?f _ _ => wp_invoke f
    | (if ?b then _ else _) =>
        let b' := eval cbn in b in
        lazymatch b' with
        | true => change b with true
        | false => change b with false
        | _ => destruct b eqn:?
        end
    | match len_value ?v with _ => _ end =>
        let o := eval cbn [len_value] in (len_value v) in
        lazymatch o with
        | Some _ => change (len_value v) with o
        | None => change (len_value v) with o
        | _ => destruct (len_value v) eqn:?
        end
    | _ => wp_unfold m
    end; cbv beta iota
  end.

Ltac wp_init :=
  unfold run, run_from, initial_state, initial_globals, initial_sys;
  match goal with
  | |- context [mkState (<[?x:=?v]> ?base) ?a ?f ?t] =>
      let g := fresh "g" in let Hg := fresh "Hg" in
      let t0 := fresh "t" in let Ht := fresh "Ht" in
      assert (exists g, g = binds [(x, v)] base) as [g Hg] by (eexists; reflexivity);
      assert (exists t0 : list entry, t0 = t) as [t0 Ht] by (eexists; reflexivity);
      change (<[x:=v]> base) with (binds [(x, v)] base);
      rewrite <- Hg; rewrite <- Ht at 1
  end.

Ltac wp_run := wp_init; repeat wp_step; cbn [trace fs globals fst snd].

Ltac find_in := first [apply list_elem_of_here | apply list_elem_of_further; find_in].

Ltac each_entry_in Hin tac :=
  first
  [ apply elem_of_nil in Hin; destruct Hin
  | apply elem_of_cons in Hin as [Hin|Hin];
    [injection Hin as -> ->; tac | each_entry_in Hin tac] ].

Ltac each_entry tac :=
  let c := fresh "c" in let a := fresh "a" in let Hin := fresh "Hin" in
  intros c a Hin; each_entry_in Hin tac.

(** *** The audit of a run *)

Lemma entries_where (f : call -> bool) (P : call -> outcome value -> Prop) (t : list entry) :
  (forall c a, (c, a) ∈ List.filter (fun e => f (fst e)) t -> P c a) ->
  forall c a, (c, a) ∈ t -> f c = true -> P c a.
Proof.
  intros H c a Hin Hf. apply H. apply list_elem_of_In, List.filter_In.
  split; [apply list_elem_of_In, Hin | exact Hf].
Qed.

Lemma artifact_writes c p : artifact_target c = Some p -> writes c = true.
Proof.
  unfold artifact_target, writes.
  destruct (names c "makedirs" || names c "save" || names c "to_csv")%bool; [done|].
  destruct (names c "plot_additive_logo"); done.
Qed.

Lemma ends_with_sep_app a b :
  b <> "" -> OsPath.ends_with_sep (a +:+ b) = OsPath.ends_with_sep b.
Proof.
  intros Hb. induction a as [|c a IH]; [reflexivity|].
  change (String c a +:+ b) with (String c (a +:+ b)).
  destruct (a +:+ b) eqn:E.
  - destruct a; [destruct b; [done | discriminate E] | discriminate E].
  - rewrite <- IH. reflexivity.
Qed.

Lemma join_save_dir w name :
  OsPath.starts_with_sep name = false ->
  OsPath.join (save_dir_of w) name = save_dir_of w +:+ "/" +:+ name.
Proof.
  intros Hn. unfold OsPath.join at 1. rewrite Hn.
  assert (OsPath.ends_with_sep (save_dir_of w) = false /\ save_dir_of w <> "") as [He Hne].
  { unfold save_dir_of, OsPath.join. cbn [OsPath.starts_with_sep Ascii.eqb Bool.eqb OsPath.sep].
    destruct (String.eqb (py_dir_of w) "" || OsPath.ends_with_sep (py_dir_of w))%bool.
    - split; [rewrite ends_with_sep_app; done|]. destruct (py_dir_of w); done.
    - split; [rewrite ends_with_sep_app; done|]. destruct (py_dir_of w); done. }
  rewrite He. apply String.eqb_neq in Hne. rewrite Hne. reflexivity.
Qed.

Lemma is_Some_insert {A} (m : gmap string A) k v j :
  is_Some (m !! j) -> is_Some (<[k:=v]> m !! j).
Proof.
  intros H. destruct (decide (k = j)) as [->|Hne].
  - rewrite lookup_insert_eq. eauto.
  - rewrite lookup_insert_ne by done. exact H.
Qed.

Ltac under_tac :=
  first
  [ left; reflexivity
  | right; eexists; split; [reflexivity | apply join_save_dir; reflexivity] ].

Ltac keep :=
  match goal with
  | |- context [List.filter ?p ?t] =>
      let l := eval lazy beta iota zeta delta
        [List.filter writes names callee_name String.eqb Ascii.eqb Bool.eqb orb andb fst snd]
        in (List.filter p t) in
      change (List.filter p t) with l
  end.


Ltac whitelist_in H :=
  cbn [artifact_target writes names callee_name args_of kwarg lookup_key
       String.eqb Ascii.eqb Bool.eqb orb andb] in H.

Ltac len_tac :=
  unfold len_answer;
  match goal with
  | H : len_value ?x = Some _ |- context [len_value ?x] => rewrite H; reflexivity
  | H : len_value ?x = None |- context [len_value ?x] => rewrite H; find_in
  end.

Ltac mave_entry :=
  eexists _, _, _;
  split; [find_in | split; [reflexivity | split; [reflexivity | len_tac]]].

Ltac target_entry :=
  let p := fresh "p" in let H := fresh "Htarget" in
  intros p H; whitelist_in H; first [discriminate H | injection H as <-; under_tac].

Ltac dir_there :=
  first
  [ assumption
  | rewrite lookup_insert_eq; eauto; fail
  | apply is_Some_insert; dir_there ].

Ltac by_switch :=
  match goal with Hb : truthy _ = _ |- _ => exact Hb end.

Ltac absurd_bool H := vm_compute in H; discriminate H.

Ltac field_mave :=
  apply (entries_where (fun c => names c "InSilicoMAVE")); keep;
  each_entry mave_entry.

Ltac field_logo :=
  apply (entries_where (fun c => names c "get_logo")); keep;
  each_entry ltac:(split; reflexivity).

Ltac field_step :=
  let H := fresh in intros H; first [by_switch | absurd_bool H].

Ltac field_one :=
  let H := fresh in
  intros H;
  first
  [ absurd_bool H
  | unfold selects_step1;
    match goal with Hb : truthy _ = _ |- _ => rewrite Hb end;
    split; vm_compute; reflexivity ].

Ltac field_np :=
  let Hnp := fresh "Hnp" in let Hsel := fresh "Hsel" in
  intros Hnp Hsel;
  first
  [ congruence
  | unfold selects_step1 in Hsel;
    match goal with Hb : truthy _ = true |- _ => rewrite Hb in Hsel; discriminate Hsel end
  | split;
    [ match goal with Hg : ?g = binds _ _ |- ?g !! _ = _ =>
        rewrite Hg, lookup_binds;
        cbn [lookup_key String.eqb Ascii.eqb Bool.eqb]; exact Hnp
      end
    | split; [vm_compute; reflexivity
    | split; [vm_compute; reflexivity
    | split; [intros []; discriminate
    | let H := fresh in intros H; first [reflexivity | absurd_bool H] ]]]] ].

Ltac field_targets :=
  let c := fresh "c" in let a := fresh "a" in let p := fresh "p" in
  let Hin := fresh "Hin" in let Ht := fresh "Ht" in
  intros c a p Hin Ht;
  pose proof (artifact_writes _ _ Ht) as Hw;
  revert p Ht; revert c a Hin Hw;
  apply (entries_where writes
           (fun c a => forall p, artifact_target c = Some p -> under _ p));
  keep; each_entry target_entry.

Ltac field_files :=
  let p := fresh "p" in let Hne := fresh "Hne" in
  intros p Hne;
  repeat match type of Hne with
  | <[?k:=_]> _ !! p <> _ =>
      destruct (decide (p = k)) as [->|?];
      [under_tac | rewrite lookup_insert_ne in Hne by done]
  end;
  done.

Ltac field_setup :=
  let H := fresh in
  intros H;
  first
  [ absurd_bool H
  | split;
    [ dir_there
    | unfold setup_first;
      match goal with
      | Hd : is_Some (_ !! _) |- _ =>
          let n := fresh in let Hn := fresh in
          destruct Hd as [n Hn]; unfold save_dir_of, py_dir_of; rewrite Hn
      | Hd : _ !! _ = None |- _ => unfold save_dir_of, py_dir_of; rewrite Hd
      end;
      eexists; reflexivity ] ].

Ltac field_guard :=
  let H := fresh in intros H; first [assumption | absurd_bool H].

Ltac field_keeps :=
  let p := fresh "p" in let H := fresh in
  intros p H; repeat apply is_Some_insert; exact H.

Ltac audit_leaf :=
  lazymatch goal with
  | |- audit _ _ _ _ (_, mkState _ _ _ ?t) => subst t
  end;
  constructor; cbn [fst snd trace fs globals];
  [ field_mave | field_logo | vm_compute; reflexivity | field_step | field_step
  | field_one | field_np | field_targets | field_files | field_setup | field_guard
  | field_keeps ].


(** Every run of the script passes the audit. *)
Lemma script_audit (cfg : config) (w : world) (argv : list string)
    (extra : gmap string value) (disk : gmap string node) :
  audit cfg w extra disk (run_from cfg w argv extra disk).
Proof.
  change (wp (script cfg) w (initial_state w argv extra disk) (audit cfg w extra disk)).
  destruct cfg as [sw sl pat].
  wp_init.
  repeat wp_step.
  all: audit_leaf.
Qed.

(** ** The lines before the switch *)

Ltac read_globals :=
  match goal with
  | Hg : ?g = binds _ _ |- ?g !! _ = _ =>
      rewrite Hg, lookup_binds;
      cbn [lookup_key String.eqb Ascii.eqb Bool.eqb]
  end.

(** What the lines before the switch establish. *)
Lemma prologue_prepared (cfg : config) (w : world) (argv : list string)
    (extra : gmap string value) (disk : gmap string node) :
  prepared cfg w disk (prologue cfg w (initial_state w argv extra disk)).
Proof.
  change (wp (prologue cfg) w (initial_state w argv extra disk) (prepared cfg w disk)).
  destruct cfg as [sw sl pat].
  wp_init.
  repeat wp_step.
  all: constructor; cbn [fst snd trace fs globals].
  all: try (intros H; first [discriminate H | read_globals; reflexivity | dir_there]).
  all: intros Hp;
    first [ split; reflexivity
          | destruct Hp as [? Hp]; unfold save_dir_of, py_dir_of in Hp; congruence ].
Qed.

(** *** Strings of background symbols *)

Lemma length_append (a b : string) :
  String.length (a +:+ b) = (String.length a + String.length b)%nat.
Proof. induction a as [|c a IH]; simpl; [reflexivity | f_equal; exact IH]. Qed.

Lemma length_repeat_N (n : nat) : String.length (repeat_str "N" n) = n.
Proof. induction n as [|n IH]; simpl; [reflexivity | f_equal; exact IH]. Qed.

Lemma get_repeat_N (n i : nat) :
  (i < n)%nat -> String.get i (repeat_str "N" n) = Some "N"%char.
Proof.
  revert i. induction n as [|n IH]; intros i Hi; [lia|].
  destruct i as [|i]; cbn; [reflexivity | apply IH; lia].
Qed.

Lemma substring_repeat_N (k n : nat) :
  String.substring 0 k (repeat_str "N" n) = repeat_str "N" (Nat.min k n).
Proof.
  revert k. induction n as [|n IH]; intros k.
  - rewrite Nat.min_0_r. destruct k; reflexivity.
  - destruct k as [|k]; [reflexivity|].
    change (repeat_str "N" (S n)) with (String "N"%char (repeat_str "N" n)).
    change (Nat.min (S k) (S n)) with (S (Nat.min k n)).
    change (repeat_str "N" (S (Nat.min k n)))
      with (String "N"%char (repeat_str "N" (Nat.min k n))).
    simpl. by rewrite IH.
Qed.

(** [seq] as two runs of background around the pattern. *)
Lemma seq_of_parts (cfg : config) :
  let h := Z.to_nat (seq_length cfg / 2) in
  let p := String.length (pattern cfg) in
  seq_of cfg =
  (repeat_str "N" h +:+ pattern cfg)
  +:+ repeat_str "N" (if Nat.eqb p 0 then 0 else h - p).
Proof.
  cbv zeta. unfold seq_of, str_slice_to, str_mul, len_str.
  rewrite length_repeat_N, substring_repeat_N. do 2 f_equal.
  set (h := Z.to_nat (seq_length cfg / 2)). set (p := String.length (pattern cfg)).
  destruct (Nat.eqb_spec p 0) as [Hp|Hp];
    destruct (Z.ltb_spec (- Z.of_nat p) 0); lia.
Qed.

Lemma len_seq_of (cfg : config) :
  let h := Z.to_nat (seq_length cfg / 2) in
  let p := String.length (pattern cfg) in
  String.length (seq_of cfg) = (h + p + (if Nat.eqb p 0 then 0 else h - p))%nat.
Proof.
  cbv zeta. rewrite seq_of_parts. cbv zeta.
  by rewrite !length_append, !length_repeat_N.
Qed.

(** Lines 38-47 never fail and never consult the world. *)
Lemma motif_prepared (cfg : config) (w : world) (s : state) :
  wp (motif cfg) w s (fun r =>
    fst r = Ok tt /\
    globals (snd r) !! "seq" = Some (VStr (seq_of cfg)) /\
    globals (snd r) !! "mut_window" = Some (motif_window cfg)).
Proof.
  destruct cfg as [sw sl pat], s as [g0 a f t0].
  enough (forall g, g = binds [] g0 ->
            wp (motif (mkConfig sw sl pat)) w (mkState g a f t0) (fun r =>
              fst r = Ok tt /\
              globals (snd r) !! "seq" = Some (VStr (seq_of (mkConfig sw sl pat))) /\
              globals (snd r) !! "mut_window" = Some (motif_window (mkConfig sw sl pat))))
    as H by (apply H; reflexivity).
  intros g Hg.
  repeat wp_step.
  cbn [fst snd globals]. split; [reflexivity|].
  split; read_globals; reflexivity.
Qed.

Lemma get_append_left (a b : string) (i : nat) :
  (i < String.length a)%nat -> String.get i (a +:+ b) = String.get i a.
Proof. intros Hi. symmetry. by apply append_correct1. Qed.

Lemma get_append_right (a b : string) (i : nat) :
  String.get (String.length a + i) (a +:+ b) = String.get i b.
Proof. rewrite Nat.add_comm. symmetry. apply append_correct2. Qed.

(** The layout of [seq] for an even length and a pattern that fits. *)
Lemma seq_of_layout (cfg : config) :
  Z.even (seq_length cfg) = true ->
  1 <= len_str (pattern cfg) <= seq_length cfg / 2 ->
  len_str (seq_of cfg) = seq_length cfg /\
  (forall i, 0 <= i < len_str (pattern cfg) ->
     String.get (Z.to_nat (seq_length cfg / 2 + i)) (seq_of cfg)
     = String.get (Z.to_nat i) (pattern cfg)) /\
  (forall i, 0 <= i < seq_length cfg ->
     ~ (seq_length cfg / 2 <= i < seq_length cfg / 2 + len_str (pattern cfg)) ->
     String.get (Z.to_nat i) (seq_of cfg) = Some "N"%char).
Proof.
  intros Heven Hfit. unfold len_str in *.
  pose proof (len_seq_of cfg) as Hlen. cbv zeta in Hlen.
  pose proof (seq_of_parts cfg) as Hparts. cbv zeta in Hparts.
  set (h := Z.to_nat (seq_length cfg / 2)) in *.
  set (p := String.length (pattern cfg)) in *.
  apply Z.even_spec in Heven as [k Hk].
  assert (seq_length cfg / 2 = k) as Hhalf by (rewrite Hk, Z.mul_comm; apply Z.div_mul; lia).
  rewrite Hhalf in *.
  assert (Nat.eqb p 0 = false) as Hp by (apply Nat.eqb_neq; lia).
  rewrite Hp in Hlen, Hparts.
  split; [rewrite Hlen; lia|]. split.
  - intros i Hi. rewrite Hparts.
    rewrite get_append_left by (rewrite length_append, length_repeat_N; fold p; lia).
    replace (Z.to_nat (k + i)) with (String.length (repeat_str "N" h) + Z.to_nat i)%nat
      by (rewrite length_repeat_N; lia).
    apply get_append_right.
  - intros i Hi Hout. rewrite Hparts.
    destruct (Z.lt_ge_cases i k) as [Hlt|Hge].
    + rewrite get_append_left by (rewrite length_append, length_repeat_N; lia).
      rewrite get_append_left by (rewrite length_repeat_N; lia).
      apply get_repeat_N. lia.
    + replace (Z.to_nat i)
        with (String.length (repeat_str "N" h +:+ pattern cfg) + (Z.to_nat i - h - p))%nat
        by (rewrite length_append, length_repeat_N; fold p; lia).
      rewrite get_append_right. apply get_repeat_N. lia.
Qed.

Lemma entry_at (t : list entry) (i : nat) (e : entry) : t !! i = Some e -> e ∈ t.
Proof. apply list_elem_of_lookup_2. Qed.

(** ** The claims *)

(** C1: the code does not mutagenize the interval around the motif.  In
    the script as written the window handed to [InSilicoMAVE] is
    [[0, 1000]], the whole encoded sequence, and not the motif interval
    [[500, 509]] that line 47 sets up as the interval to mutagenize:
    lines 71-72 overwrite it before the generator is built. *)
Lemma mave_window_is_not_motif_window :
  lab_mave_entry ∈ trace (snd (run as_written lab [] ∅)) /\
  names (fst lab_mave_entry) "InSilicoMAVE" = true /\
  kwarg "mut_window" (fst lab_mave_entry) = Some (VList [VInt 0; VInt 1000]) /\
  motif_window as_written = VList [VInt 500; VInt 509] /\
  kwarg "mut_window" (fst lab_mave_entry) <> Some (motif_window as_written).
Proof.
  split; [apply entry_at with 13%nat; vm_compute; reflexivity|].
  repeat split; try (vm_compute; reflexivity).
  vm_compute. discriminate.
Qed.

(** The same defect in every run: whatever the libraries answer, any call
    of [InSilicoMAVE] is given the window [[0, n]] and the length [n],
    where [n] is [len(x)] of the one-hot array [x] that [utils.seq2oh]
    returned, and never the interval of line 47. *)
Theorem mave_window_spans_encoded_sequence (cfg : config) (w : world)
    (argv : list string) (extra : gmap string value) (disk : gmap string node)
    (c : call) (a : outcome value) :
  (c, a) ∈ trace (snd (run_from cfg w argv extra disk)) ->
  names c "InSilicoMAVE" = true ->
  exists x n args,
    (Invoke (VAttr (VModule "utils") "seq2oh") args [], Ok x)
      ∈ trace (snd (run_from cfg w argv extra disk)) /\
    kwarg "mut_window" c = Some (VList [VInt 0; n]) /\
    kwarg "seq_length" c = Some n /\
    len_answer (trace (snd (run_from cfg w argv extra disk))) x n.
Proof. exact (audit_mave _ _ _ _ _ (script_audit cfg w argv extra disk) c a). Qed.

Lemma mave_window_spans_encoded_sequence_witness :
  (fst lab_mave_entry, snd lab_mave_entry)
    ∈ trace (snd (run_from as_written lab [] ∅ ∅)) /\
  names (fst lab_mave_entry) "InSilicoMAVE" = true /\
  exists x n args,
    (Invoke (VAttr (VModule "utils") "seq2oh") args [], Ok x)
      ∈ trace (snd (run_from as_written lab [] ∅ ∅)) /\
    kwarg "mut_window" (fst lab_mave_entry) = Some (VList [VInt 0; n]) /\
    kwarg "seq_length" (fst lab_mave_entry) = Some n /\
    len_answer (trace (snd (run_from as_written lab [] ∅ ∅))) x n.
Proof.
  assert ((fst lab_mave_entry, snd lab_mave_entry)
            ∈ trace (snd (run_from as_written lab [] ∅ ∅))) as Hin
    by (apply entry_at with 13%nat; vm_compute; reflexivity).
  assert (names (fst lab_mave_entry) "InSilicoMAVE" = true) as Hname
    by (vm_compute; reflexivity).
  split; [exact Hin|]. split; [exact Hname|].
  exact (mave_window_spans_encoded_sequence as_written lab [] ∅ ∅ _ _ Hin Hname).
Defined.

(** C2: whenever the switch of line 50 selects STEP 2, [np] is unbound at
    the end of the run, neither [np.load] nor [train] is ever called, the
    run does not end normally, and once line 87 has succeeded - control is
    at line 93 - the run ends with [NameError: np]. *)
Theorem step2_stops_with_NameError_np (cfg : config) (w : world)
    (argv : list string) (disk : gmap string node) :
  selects_step1 cfg = false ->
  globals (snd (run cfg w argv disk)) !! "np" = None /\
  called "load" (trace (snd (run cfg w argv disk))) = false /\
  called "train" (trace (snd (run cfg w argv disk))) = false /\
  (forall u, fst (run cfg w argv disk) <> Ok u) /\
  (reached_np_load (trace (snd (run cfg w argv disk))) = true ->
   fst (run cfg w argv disk) = Raise (NameError "np")).
Proof.
  intros Hsel. unfold run.
  apply (audit_np _ _ _ _ _ (script_audit cfg w argv ∅ disk)); [apply lookup_empty | exact Hsel].
Qed.

Lemma step2_stops_with_NameError_np_witness :
  selects_step1 step2_config = false /\
  globals (snd (run step2_config lab [] disk_after_step1)) !! "np" = None /\
  called "load" (trace (snd (run step2_config lab [] disk_after_step1))) = false /\
  called "train" (trace (snd (run step2_config lab [] disk_after_step1))) = false /\
  (forall u, fst (run step2_config lab [] disk_after_step1) <> Ok u) /\
  (reached_np_load (trace (snd (run step2_config lab [] disk_after_step1))) = true ->
   fst (run step2_config lab [] disk_after_step1) = Raise (NameError "np")).
Proof.
  split; [reflexivity|].
  apply (step2_stops_with_NameError_np step2_config lab [] disk_after_step1).
  reflexivity.
Defined.

(** C3: the hand-over between the phases does not work in the code.  STEP 1
    persists [x_mut.npy] and [y_mut.npy] under the output directory, and a
    STEP 2 that had [np] bound would load exactly these two files; but the
    STEP 2 of the file, run on the disk STEP 1 left behind, ends with
    [NameError: np] before anything is loaded or trained. *)
Theorem step2_never_loads_what_step1_saved :
  fst (run as_written lab [] ∅) = Ok tt /\
  disk_after_step1 !! (save_dir_of lab +:+ "/x_mut.npy") = Some (File (VObj 14)) /\
  disk_after_step1 !! (save_dir_of lab +:+ "/y_mut.npy") = Some (File (VObj 15)) /\
  (Invoke (VAttr (VModule "numpy") "load") [VStr (save_dir_of lab +:+ "/x_mut.npy")] [],
   Ok (VObj 14))
    ∈ trace (snd (run_from step2_config lab [] with_numpy disk_after_step1)) /\
  (Invoke (VAttr (VModule "numpy") "load") [VStr (save_dir_of lab +:+ "/y_mut.npy")] [],
   Ok (VObj 15))
    ∈ trace (snd (run_from step2_config lab [] with_numpy disk_after_step1)) /\
  fst (run step2_config lab [] disk_after_step1) = Raise (NameError "np") /\
  called "load" (trace (snd (run step2_config lab [] disk_after_step1))) = false /\
  called "train" (trace (snd (run step2_config lab [] disk_after_step1))) = false.
Proof.
  split; [vm_compute; reflexivity|].
  split; [vm_compute; reflexivity|].
  split; [vm_compute; reflexivity|].
  split; [apply entry_at with 4%nat; vm_compute; reflexivity|].
  split; [apply entry_at with 5%nat; vm_compute; reflexivity|].
  repeat split; vm_compute; reflexivity.
Qed.

(** C4, as stated, does not hold: when [os.makedirs] fails the run ends on
    line 35 and neither phase runs. *)
Lemma no_phase_runs_when_setup_fails :
  fst (run as_written read_only_lab [] ∅) = Raise (LibraryError "PermissionError") /\
  step1_ran (trace (snd (run as_written read_only_lab [] ∅))) = false /\
  step2_ran (trace (snd (run as_written read_only_lab [] ∅))) = false.
Proof. repeat split; vm_compute; reflexivity. Qed.

(** C4 (amended): the two phases never both run; a phase that runs is the
    one the switch selects; unless [os.makedirs] failed, the selected phase
    does run and the other does not; and the switch as written selects
    STEP 1. *)
Theorem only_the_selected_phase_runs (cfg : config) (w : world)
    (argv : list string) (extra : gmap string value) (disk : gmap string node) :
  (step1_ran (trace (snd (run_from cfg w argv extra disk)))
   && step2_ran (trace (snd (run_from cfg w argv extra disk))))%bool = false /\
  (step1_ran (trace (snd (run_from cfg w argv extra disk))) = true ->
   selects_step1 cfg = true) /\
  (step2_ran (trace (snd (run_from cfg w argv extra disk))) = true ->
   selects_step1 cfg = false) /\
  (setup_failed (trace (snd (run_from cfg w argv extra disk))) = false ->
   step1_ran (trace (snd (run_from cfg w argv extra disk))) = selects_step1 cfg /\
   step2_ran (trace (snd (run_from cfg w argv extra disk))) = negb (selects_step1 cfg)) /\
  selects_step1 as_written = true.
Proof.
  pose proof (script_audit cfg w argv extra disk) as Ha.
  split; [apply Ha|]. split; [apply Ha|]. split; [apply Ha|].
  split; [apply Ha | reflexivity].
Qed.

(** C5: a run in which either phase starts has opened with the existence
    test of line 34, followed by [os.makedirs] when the directory was
    missing, and the directory [outputs_global_analysis] next to the script
    is on disk; every path the script hands to [os.makedirs], [np.save],
    [to_csv] or [plot_additive_logo], and every path whose content the run
    changes, is that directory or an entry directly inside it. *)
Theorem artifacts_stay_in_output_directory (cfg : config) (w : world)
    (argv : list string) (extra : gmap string value) (disk : gmap string node) :
  save_dir_of w
  = OsPath.join (OsPath.dirname (abspath w (script_file w))) "outputs_global_analysis" /\
  ((step1_ran (trace (snd (run_from cfg w argv extra disk)))
    || step2_ran (trace (snd (run_from cfg w argv extra disk))))%bool = true ->
   is_Some (fs (snd (run_from cfg w argv extra disk)) !! save_dir_of w) /\
   setup_first w disk (trace (snd (run_from cfg w argv extra disk)))) /\
  (forall c a p,
     (c, a) ∈ trace (snd (run_from cfg w argv extra disk)) ->
     artifact_target c = Some p -> under (save_dir_of w) p) /\
  (forall p,
     fs (snd (run_from cfg w argv extra disk)) !! p <> disk !! p ->
     under (save_dir_of w) p).
Proof.
  pose proof (script_audit cfg w argv extra disk) as Ha.
  split; [reflexivity|]. split; [apply Ha|]. split; apply Ha.
Qed.

(** What the two phases put on disk in the first laboratory. *)
Example lab_artifacts :
  omap (fun e => artifact_target (fst e)) (trace (snd (run as_written lab [] ∅)))
  = [save_dir_of lab; save_dir_of lab +:+ "/x_mut.npy"; save_dir_of lab +:+ "/y_mut.npy"] /\
  omap (fun e => artifact_target (fst e))
    (trace (snd (run_from step2_config lab [] with_numpy disk_after_step1)))
  = [save_dir_of lab +:+ "/logo.csv"; save_dir_of lab].
Proof. split; vm_compute; reflexivity. Qed.

(** C6, as stated, does not hold: with [seq_length = 1001] the pattern
    satisfies [len(pattern) <= seq_length - seq_length//2], yet [seq] has
    1000 symbols. *)
Lemma odd_length_gives_short_seq :
  len_str (pattern odd_config) <= seq_length odd_config - seq_length odd_config / 2 /\
  globals (snd (motif odd_config lab (initial_state lab [] ∅ ∅))) !! "seq"
  = Some (VStr (seq_of odd_config)) /\
  len_str (seq_of odd_config) = 1000 /\
  seq_length odd_config = 1001.
Proof. repeat split; vm_compute; try reflexivity. discriminate. Qed.

(** C6 (amended): for an even [seq_length] and a non-empty pattern of at
    most [seq_length//2] symbols, lines 38-47 succeed from any state and
    bind [seq] to a string of exactly [seq_length] symbols that carries the
    pattern at positions [seq_length//2 .. seq_length//2 + len(pattern) - 1]
    and ['N'] everywhere else. *)
Theorem seq_is_pattern_in_background (cfg : config) (w : world) (s : state) :
  Z.even (seq_length cfg) = true ->
  1 <= len_str (pattern cfg) <= seq_length cfg / 2 ->
  exists q,
    fst (motif cfg w s) = Ok tt /\
    globals (snd (motif cfg w s)) !! "seq" = Some (VStr q) /\
    len_str q = seq_length cfg /\
    (forall i, 0 <= i < len_str (pattern cfg) ->
       String.get (Z.to_nat (seq_length cfg / 2 + i)) q
       = String.get (Z.to_nat i) (pattern cfg)) /\
    (forall i, 0 <= i < seq_length cfg ->
       ~ (seq_length cfg / 2 <= i < seq_length cfg / 2 + len_str (pattern cfg)) ->
       String.get (Z.to_nat i) q = Some "N"%char).
Proof.
  intros Heven Hfit. exists (seq_of cfg).
  destruct (motif_prepared cfg w s) as (Hok & Hseq & _).
  split; [exact Hok|]. split; [exact Hseq|].
  exact (seq_of_layout cfg Heven Hfit).
Qed.

Lemma seq_is_pattern_in_background_witness :
  Z.even (seq_length as_written) = true /\
  1 <= len_str (pattern as_written) <= seq_length as_written / 2 /\
  exists q,
    fst (motif as_written lab (initial_state lab [] ∅ ∅)) = Ok tt /\
    globals (snd (motif as_written lab (initial_state lab [] ∅ ∅))) !! "seq"
    = Some (VStr q) /\
    len_str q = seq_length as_written /\
    (forall i, 0 <= i < len_str (pattern as_written) ->
       String.get (Z.to_nat (seq_length as_written / 2 + i)) q
       = String.get (Z.to_nat i) (pattern as_written)) /\
    (forall i, 0 <= i < seq_length as_written ->
       ~ (seq_length as_written / 2 <= i
          < seq_length as_written / 2 + len_str (pattern as_written)) ->
       String.get (Z.to_nat i) q = Some "N"%char).
Proof.
  assert (Z.even (seq_length as_written) = true) as Heven by reflexivity.
  assert (1 <= len_str (pattern as_written) <= seq_length as_written / 2) as Hfit
    by (vm_compute; split; discriminate).
  split; [exact Heven|]. split; [exact Hfit|].
  exact (seq_is_pattern_in_background as_written lab (initial_state lab [] ∅ ∅) Heven Hfit).
Defined.

(** C7: nothing in the script catches an exception.  If any call the run
    makes - into a library, a builtin or the file system - raises, that
    call is the last thing the run does and the run ends with that very
    exception. *)
Theorem exceptions_propagate_uncaught (cfg : config) (w : world) (argv : list string)
    (extra : gmap string value) (disk : gmap string node)
    (pre post : list entry) (c : call) (e : exn) :
  trace (snd (run_from cfg w argv extra disk)) = (pre ++ (c, Raise e) :: post)%list ->
  post = [] /\ fst (run_from cfg w argv extra disk) = Raise e.
Proof.
  unfold run_from. intros Ht.
  pose proof (faithful_script cfg w (initial_state w argv extra disk) tidy_nil) as Hf.
  destruct (script cfg w (initial_state w argv extra disk)) as [[[]|e'] s']; cbn in *.
  - exfalso. exact (tidy_no_raise _ _ _ _ _ Hf Ht).
  - destruct Hf as [Hf|(t & c' & Heq & Hf)].
    + exfalso. exact (tidy_no_raise _ _ _ _ _ Hf Ht).
    + rewrite Heq in Ht. apply raise_is_last in Ht as [-> ->]; done.
Qed.

Lemma exceptions_propagate_uncaught_witness :
  trace (snd (run_from as_written offline_lab [] ∅ ∅))
  = (firstn 9 offline_entries
     ++ (Invoke (VAttr (VModule "kipoi") "get_model") [VStr "BPNet-OSKN"] [],
         Raise (LibraryError "ConnectionError")) :: [])%list /\
  ([] = ([] : list entry) /\
   fst (run_from as_written offline_lab [] ∅ ∅) = Raise (LibraryError "ConnectionError")).
Proof.
  assert (trace (snd (run_from as_written offline_lab [] ∅ ∅))
          = (firstn 9 offline_entries
             ++ (Invoke (VAttr (VModule "kipoi") "get_model") [VStr "BPNet-OSKN"] [],
                 Raise (LibraryError "ConnectionError")) :: [])%list) as Ht
    by (vm_compute; reflexivity).
  split; [exact Ht|].
  exact (exceptions_propagate_uncaught as_written offline_lab [] ∅ ∅ _ _ _ _ Ht).
Defined.

(** C8: in every run, any call of [get_logo] is given the motif interval
    of line 47 as [mut_window] and the [seq_length] of line 40 - 1000 as
    written - as [full_length]; STEP 1 has not run in such a run; and
    unless [seq_length//2] is 0 that window is not of the form [[0, n]]
    under which STEP 1 generates the dataset. *)
Theorem logo_window_is_motif_window (cfg : config) (w : world) (argv : list string)
    (extra : gmap string value) (disk : gmap string node)
    (c : call) (a : outcome value) :
  (c, a) ∈ trace (snd (run_from cfg w argv extra disk)) ->
  names c "get_logo" = true ->
  kwarg "mut_window" c
  = Some (VList [VInt (seq_length cfg / 2);
                 VInt (seq_length cfg / 2 + len_str (pattern cfg))]) /\
  kwarg "full_length" c = Some (VInt (seq_length cfg)) /\
  seq_length as_written = 1000 /\
  (seq_length cfg / 2 <> 0 ->
   forall n, kwarg "mut_window" c <> Some (VList [VInt 0; n])).
Proof.
  intros Hin Hname.
  destruct (audit_logo _ _ _ _ _ (script_audit cfg w argv extra disk) c a Hin Hname)
    as [Hw Hl].
  split; [exact Hw|]. split; [exact Hl|]. split; [reflexivity|].
  intros Hhalf n. rewrite Hw. unfold motif_window. congruence.
Qed.

Lemma logo_window_is_motif_window_witness :
  (fst lab_logo_entry, snd lab_logo_entry)
    ∈ trace (snd (run_from step2_config lab [] with_numpy disk_after_step1)) /\
  names (fst lab_logo_entry) "get_logo" = true /\
  (kwarg "mut_window" (fst lab_logo_entry)
   = Some (VList [VInt (seq_length step2_config / 2);
                  VInt (seq_length step2_config / 2 + len_str (pattern step2_config))]) /\
   kwarg "full_length" (fst lab_logo_entry) = Some (VInt (seq_length step2_config)) /\
   seq_length as_written = 1000 /\
   (seq_length step2_config / 2 <> 0 ->
    forall n, kwarg "mut_window" (fst lab_logo_entry) <> Some (VList [VInt 0; n]))).
Proof.
  assert ((fst lab_logo_entry, snd lab_logo_entry)
            ∈ trace (snd (run_from step2_config lab [] with_numpy disk_after_step1)))
    as Hin by (apply entry_at with 11%nat; vm_compute; reflexivity).
  assert (names (fst lab_logo_entry) "get_logo" = true) as Hname
    by (vm_compute; reflexivity).
  split; [exact Hin|]. split; [exact Hname|].
  exact (logo_window_is_motif_window step2_config lab [] with_numpy disk_after_step1
           _ _ Hin Hname).
Defined.

(** C9: [os.makedirs] is called only in runs that start without the output
    directory.  When the directory is already there, no run calls
    [os.makedirs], the lines before the switch complete without an
    exception and leave the disk as it was, and the directory is still
    there when the run ends. *)
Theorem makedirs_only_when_directory_missing (cfg : config) (w : world)
    (argv : list string) (extra : gmap string value) (disk : gmap string node) :
  is_Some (disk !! save_dir_of w) ->
  called "makedirs" (trace (snd (run_from cfg w argv extra disk))) = false /\
  fst (prologue cfg w (initial_state w argv extra disk)) = Ok tt /\
  fs (snd (prologue cfg w (initial_state w argv extra disk))) = disk /\
  is_Some (fs (snd (run_from cfg w argv extra disk)) !! save_dir_of w).
Proof.
  intros Hdir.
  pose proof (script_audit cfg w argv extra disk) as Ha.
  pose proof (prologue_prepared cfg w argv extra disk) as Hp.
  split.
  - destruct (called "makedirs" (trace (snd (run_from cfg w argv extra disk)))) eqn:E;
      [|reflexivity].
    apply (audit_guard _ _ _ _ _ Ha) in E. rewrite E in Hdir. by destruct Hdir.
  - destruct (prepared_present _ _ _ _ Hp Hdir) as [Hok Hfs].
    split; [exact Hok|]. split; [exact Hfs|].
    exact (audit_keeps _ _ _ _ _ Ha _ Hdir).
Qed.

Lemma makedirs_only_when_directory_missing_witness :
  is_Some (disk_with_dir !! save_dir_of lab) /\
  called "makedirs" (trace (snd (run_from as_written lab [] ∅ disk_with_dir))) = false /\
  fst (prologue as_written lab (initial_state lab [] ∅ disk_with_dir)) = Ok tt /\
  fs (snd (prologue as_written lab (initial_state lab [] ∅ disk_with_dir))) = disk_with_dir /\
  is_Some (fs (snd (run_from as_written lab [] ∅ disk_with_dir)) !! save_dir_of lab).
Proof.
  assert (is_Some (disk_with_dir !! save_dir_of lab)) as Hdir
    by (exists Dir; vm_compute; reflexivity).
  split; [exact Hdir|].
  exact (makedirs_only_when_directory_missing as_written lab [] ∅ disk_with_dir Hdir).
Defined.

(** C10: two runs that differ only in their command-line arguments end with
    the same outcome, make the same calls with the same answers in the
    same order, leave the same files and bind the same globals. *)
Theorem command_line_is_ignored (cfg : config) (w : world) (argv1 argv2 : list string)
    (extra : gmap string value) (disk : gmap string node) :
  fst (run_from cfg w argv1 extra disk) = fst (run_from cfg w argv2 extra disk) /\
  trace (snd (run_from cfg w argv1 extra disk))
  = trace (snd (run_from cfg w argv2 extra disk)) /\
  fs (snd (run_from cfg w argv1 extra disk)) = fs (snd (run_from cfg w argv2 extra disk)) /\
  globals (snd (run_from cfg w argv1 extra disk))
  = globals (snd (run_from cfg w argv2 extra disk)).
Proof.
  unfold run_from.
  assert (same_but_argv (initial_state w argv1 extra disk)
            (initial_state w argv2 extra disk)) as Hs.
  { unfold same_but_argv, initial_state, initial_sys; cbn. by rewrite !delete_insert_eq. }
  destruct (secure_script cfg w _ _ Hs) as [Ho (Hg & Hf & Ht & _)]. done.
Qed.

(** ** The data flow of a run *)

Section WpMore.
Context (w : world) (Q : outcome value * state -> Prop).

(** [np.load] through whatever [np] is bound to: numpy's own [load] reads
    the modelled disk. *)
Lemma wp_load_cases v p l g a f t :
  let c := Invoke (VAttr v "load") [VStr p] [] in
  t = l ->
  (forall x, (v = VModule "numpy" -> f !! p = Some (File x)) ->
     forall t', t' = (l ++ [(c, Ok x)])%list -> Q (Ok x, mkState g a f t')) ->
  (forall e,
     (v = VModule "numpy" ->
      e = FileNotFoundError p /\ forall x, f !! p <> Some (File x)) ->
     forall t', t' = (l ++ [(c, Raise e)])%list -> Q (Raise e, mkState g a f t')) ->
  wp (invoke (VAttr v "load") [VStr p] []) w (mkState g a f t) Q.
Proof.
  intros c -> Hok Herr. unfold invoke.
  repeat match goal with
  | |- context [is_fn (VAttr v "load") ?q] =>
      lazymatch q with
      | ["numpy"; "load"] => fail
      | _ =>
          let E := fresh in
          destruct (is_fn (VAttr v "load") q) eqn:E;
          [apply is_fn_attr_last in E; discriminate E|]
      end
  end.
  destruct (is_fn (VAttr v "load") ["numpy"; "load"]) eqn:E.
  - unfold wp, record; cbn.
    destruct (f !! p) as [[|x]|] eqn:Ef.
    + apply Herr; [intros _; split; [reflexivity | congruence] | reflexivity].
    + apply Hok; [intros _; reflexivity | reflexivity].
    + apply Herr; [intros _; split; [reflexivity | congruence] | reflexivity].
  - eapply wp_ask; [reflexivity | |].
    + intros x t' Ht'. apply Hok; [intros ->; vm_compute in E; discriminate E | exact Ht'].
    + intros e t' Ht'. apply Herr; [intros ->; vm_compute in E; discriminate E | exact Ht'].
Qed.

End WpMore.

Ltac flow_step :=
  lazymatch goal with
  | |- wp (invoke (VAttr _ "load") _ _) _ _ _ =>
      with_trace ltac:(fun t H =>
        eapply wp_load_cases;
        [exact H | intros ? ?Hload; next_trace t H | intros ? ?Hload; next_trace t H]);
      cbv beta iota
  | |- wp (lift (index _ _)) _ _ _ =>
      apply wp_lift_cases; [intros ? ?Hindex | intros ? ?Hindex]; cbv beta iota
  | |- _ => wp_step
  end.

Lemma append_cancel (a b c : string) : a +:+ b = a +:+ c -> b = c.
Proof.
  induction a as [|x a IH]; [done|].
  change (String x a +:+ b) with (String x (a +:+ b)).
  change (String x a +:+ c) with (String x (a +:+ c)).
  intros H. injection H as H. exact (IH H).
Qed.

Lemma append_not_self (a b : string) : b <> "" -> a +:+ b <> a.
Proof.
  intros Hb H. apply Hb.
  apply (append_cancel a b ""). rewrite H. clear. induction a as [|x a IH]; [done|].
  change (String x a +:+ "") with (String x (a +:+ "")). by rewrite <- IH.
Qed.

Lemma save_dir_not_inside w name :
  OsPath.starts_with_sep name = false -> OsPath.join (save_dir_of w) name <> save_dir_of w.
Proof. intros Hn. rewrite join_save_dir by exact Hn. by apply append_not_self. Qed.

Lemma mut_paths_differ w : y_mut_path w <> x_mut_path w.
Proof.
  unfold x_mut_path, y_mut_path. rewrite !join_save_dir by reflexivity.
  intros H. apply append_cancel in H. discriminate H.
Qed.

Lemma dir_present (disk : gmap string node) d :
  is_Some (disk !! d) -> bool_decide (is_Some (disk !! d)) = true.
Proof. apply bool_decide_eq_true_2. Qed.

Lemma dir_absent (disk : gmap string node) d :
  disk !! d = None -> bool_decide (is_Some (disk !! d)) = false.
Proof. intros H. apply bool_decide_eq_false_2. rewrite H. by intros []. Qed.

Lemma not_save_dir w name :
  OsPath.starts_with_sep name = false -> save_dir_of w <> OsPath.join (save_dir_of w) name.
Proof. intros Hn H. symmetry in H. exact (save_dir_not_inside w name Hn H). Qed.

Ltac chain_go :=
  lazymatch goal with
  | |- exists _, _ => eexists; chain_go
  | |- _ /\ _ => split; chain_go
  | |- _ ∈ _ => find_in
  | |- _ \/ _ => first [left; chain_go | right; chain_go]
  | |- as_pair _ = _ => eassumption
  | |- index _ _ = _ => eassumption
  | |- _ !! _ = _ => eassumption
  | |- _ = _ => reflexivity
  end.

Ltac chain := cbv beta; chain_go.

Ltac entries_with lem tac :=
  apply lem;
  match goal with
  | |- context [List.filter ?p ?t] =>
      let l := eval lazy beta iota zeta delta
        [List.filter names callee_name String.eqb Ascii.eqb Bool.eqb orb andb fst snd]
        in (List.filter p t) in
      change (List.filter p t) with l
  end;
  each_entry tac.

Ltac entries f tac := entries_with (entries_where f) tac.

Ltac off_switch H :=
  unfold selects_step1 in H;
  match goal with Hb : truthy _ = _ |- _ => rewrite Hb in H; discriminate H end.

Ltac past_makedirs := apply not_save_dir; reflexivity.

Ltac load_answer Hnp :=
  unfold x_mut_path, y_mut_path;
  match goal with
  | H : _ -> _ !! _ = Some (File _) |- _ =>
      let H' := fresh in
      pose proof (H Hnp) as H';
      try rewrite lookup_insert_ne in H' by past_makedirs;
      split; [intros ? ?; congruence | intros ?; congruence]
  | H : _ -> _ = FileNotFoundError _ /\ _ |- _ =>
      let He := fresh in let Hno := fresh in
      destruct (H Hnp) as [He Hno];
      split;
      [ let v := fresh in let Hv := fresh in
        intros v Hv; exfalso; apply (Hno v);
        try rewrite lookup_insert_ne by past_makedirs; exact Hv
      | intros _; congruence ]
  end.

Ltac field_bytecode := lookup_tac; reflexivity.

Ltac field_sys_path :=
  match goal with
  | |- context [imported ?m ?t] =>
      let b := eval vm_compute in (imported m t) in
      change (imported m t) with b
  end;
  cbv iota; lookup_tac; reflexivity.

Ltac field_imports :=
  unfold phase_modules, selects_step1;
  try match goal with Hb : truthy _ = _ |- _ => rewrite Hb end;
  vm_compute; reflexivity.

Ltac field_reached :=
  let np := fresh in let H := fresh in let Hnp := fresh in
  intros np H Hnp;
  first
  [ absurd_bool H
  | congruence
  | match goal with Hvar : _ !! "np" = Some _ |- _ =>
      rewrite Hvar in Hnp; injection Hnp as <-
    end;
    eexists; find_in ].

Ltac field_saved :=
  let Hok := fresh in let Hsel := fresh in
  intros Hok Hsel;
  first
  [ discriminate Hok
  | off_switch Hsel
  | eexists _, _, _, _, _;
    split; [find_in |
    split; [eassumption |
    split;
    [ rewrite lookup_insert_ne by apply mut_paths_differ; apply lookup_insert_eq
    | apply lookup_insert_eq ]]] ].

Ltac field_unpack :=
  entries (fun c => (names c "generate" || names c "train")%bool)
    ltac:(cbv beta iota;
          first
          [ exact I
          | match goal with
            | Hpair : as_pair ?r = _ |- context [as_pair ?r] => rewrite Hpair
            end;
            first
            [ exact I
            | split; [reflexivity | split; [reflexivity | vm_compute; reflexivity]] ] ]).

Ltac field_own :=
  let e := fresh in let He := fresh in let Hall := fresh in
  intros e He Hall;
  first
  [ discriminate He
  | absurd_bool Hall
  | injection He as <-;
    first
    [ left; split; [reflexivity | split; [assumption | by_switch]]
    | right; left; eexists _, _;
      split; [reflexivity | split; [reflexivity | eassumption]]
    | right; right; eexists _, _; split; [reflexivity | eassumption] ] ].

Ltac decide_dir :=
  unfold save_dir_of, py_dir_of;
  match goal with
  | Hd : is_Some (?d !! ?p) |- context [bool_decide (is_Some (?d !! ?p))] =>
      rewrite (dir_present d p Hd)
  | Hd : ?d !! ?p = None |- context [bool_decide (is_Some (?d !! ?p))] =>
      rewrite (dir_absent d p Hd)
  end.

Ltac field_step1_done :=
  let Hok := fresh in let Hsel := fresh in
  intros Hok Hsel;
  first
  [ discriminate Hok
  | off_switch Hsel
  | decide_dir;
    first [exists true; vm_compute; reflexivity | exists false; vm_compute; reflexivity] ].

Ltac field_step2_done :=
  let Hok := fresh in let Hsel := fresh in
  intros Hok Hsel;
  first
  [ discriminate Hok
  | off_switch Hsel
  | decide_dir; vm_compute; reflexivity ].

Ltac field_load :=
  entries (fun c => names c "load")
    ltac:(eexists _, _;
          split; [eassumption |
          split; [reflexivity |
          split; [first [left; reflexivity | right; reflexivity] |
          let Hnp := fresh "Hnp" in intros Hnp; load_answer Hnp]]]).

Ltac flow_leaf :=
  lazymatch goal with
  | |- flow _ _ _ _ (_, mkState _ _ _ ?t) => subst t
  end;
  constructor; cbn [fst snd trace fs globals sys_attrs];
  [ field_bytecode
  | field_sys_path
  | field_imports
  | entries (fun c => names c "seq2oh") ltac:(reflexivity)
  | entries (fun c => names c "BPNetPredictor") chain
  | entries (fun c => names c "InSilicoMAVE") chain
  | entries (fun c => names c "generate") chain
  | entries (fun c => names c "save") chain
  | field_saved
  | field_unpack
  | field_own
  | field_step1_done
  | field_load
  | field_reached
  | entries (fun c => names c "SurrogateMAVENN") chain
  | entries (fun c => names c "train") chain
  | entries (fun c => (names c "get_params" || names c "get_logo")%bool) chain
  | entries (fun c => (names c "arr2pd" || names c "to_csv"
                       || names c "plot_additive_logo")%bool) chain
  | field_step2_done ].

(** Every run of the script passes values on as the record says. *)
Lemma script_flow (cfg : config) (w : world) (argv : list string)
    (extra : gmap string value) (disk : gmap string node) :
  flow cfg w extra disk (run_from cfg w argv extra disk).
Proof.
  change (wp (script cfg) w (initial_state w argv extra disk) (flow cfg w extra disk)).
  destruct cfg as [sw sl pat].
  wp_init. repeat flow_step.
  all: flow_leaf.
Qed.

(** ** Further properties of the two phases *)

(** A call that raised is the last thing a run did, and decides how the
    run ends. *)
Lemma raised_entry_ends_run (cfg : config) (w : world) (argv : list string)
    (extra : gmap string value) (disk : gmap string node) (c : call) (e : exn) :
  (c, Raise e) ∈ trace (snd (run_from cfg w argv extra disk)) ->
  fst (run_from cfg w argv extra disk) = Raise e /\
  last (trace (snd (run_from cfg w argv extra disk))) = Some (c, Raise e).
Proof.
  intros Hin. apply list_elem_of_split in Hin as (pre & post & Ht).
  revert Ht. unfold run_from.
  pose proof (faithful_script cfg w (initial_state w argv extra disk) tidy_nil) as Hf.
  destruct (script cfg w (initial_state w argv extra disk)) as [[[]|e'] s']; cbn in *.
  - intros Ht. exfalso. exact (tidy_no_raise _ _ _ _ _ Hf Ht).
  - intros Ht. destruct Hf as [Hf|(t & c' & Heq & Hf)].
    + exfalso. exact (tidy_no_raise _ _ _ _ _ Hf Ht).
    + rewrite Heq in Ht. pose proof Ht as Ht'.
      apply raise_is_last in Ht' as [-> ->]; [|done].
      split; [reflexivity|]. rewrite Heq, Ht. apply last_snoc.
Qed.

Lemma called_entry (a : string) (t : list entry) :
  called a t = true -> exists c r, (c, r) ∈ t /\ names c a = true.
Proof.
  unfold called. intros H. apply existsb_exists in H as ([c r] & Hin & Hn).
  exists c, r. split; [apply list_elem_of_In, Hin | exact Hn].
Qed.

Lemma not_called (a : string) (t : list entry) :
  (forall c r, (c, r) ∈ t -> names c a = true -> False) -> called a t = false.
Proof.
  intros H. destruct (called a t) eqn:E; [|reflexivity].
  apply called_entry in E as (c & r & Hin & Hn). destruct (H c r Hin Hn).
Qed.

(** X1: every run, also one that fails, ends with
    [sys.dont_write_bytecode] set to [True] (line 18). *)
Theorem bytecode_writing_is_switched_off (cfg : config) (w : world)
    (argv : list string) (extra : gmap string value) (disk : gmap string node) :
  sys_attrs (initial_state w argv extra disk) !! "dont_write_bytecode"
  = Some (VBool false) /\
  sys_attrs (snd (run_from cfg w argv extra disk)) !! "dont_write_bytecode"
  = Some (VBool true).
Proof.
  split; [reflexivity|]. apply (flow_bytecode _ _ _ _ _ (script_flow cfg w argv extra disk)).
Qed.

(** X2: whatever [sys.path] the interpreter starts with, a run that gets
    as far as [import utils] ends with that same list followed by one more
    entry, the directory [squid] next to the script's parent directory;
    a run that does not get that far leaves [sys.path] as it was (lines
    31-32 and 53-54). *)
Theorem sys_path_gains_the_squid_directory (cfg : config) (w : world)
    (argv : list string) (extra : gmap string value) (disk : gmap string node) :
  sys_attrs (initial_state w argv extra disk) !! "path"
  = Some (VList (VStr <$> sys_path w)) /\
  sys_attrs (snd (run_from cfg w argv extra disk)) !! "path"
  = Some (VList (if imported ["utils"] (trace (snd (run_from cfg w argv extra disk)))
                 then (VStr <$> sys_path w)
                      ++ [VStr (OsPath.join (OsPath.dirname (py_dir_of w)) "squid")]
                 else VStr <$> sys_path w)).
Proof.
  split; [reflexivity|].
  apply (flow_sys_path _ _ _ _ _ (script_flow cfg w argv extra disk)).
Qed.

(** The search path after STEP 1 in the first laboratory. *)
Example lab_squid_dir :
  sys_attrs (snd (run as_written lab [] ∅)) !! "path"
  = Some (VList [VStr "/home/user/squid-nn/examples"; VStr "/usr/lib/python3.7";
                 VStr "/usr/lib/python3.7/site-packages";
                 VStr "/home/user/squid-nn/squid"]).
Proof. vm_compute. reflexivity. Qed.

(** X3: whatever the libraries answer, [utils.seq2oh] is only ever called
    with the padded sequence of line 46 and the alphabet [A, C, G, T]
    (lines 39, 46 and 59). *)
Theorem seq2oh_gets_the_padded_sequence (cfg : config) (w : world)
    (argv : list string) (extra : gmap string value) (disk : gmap string node)
    (c : call) (a : outcome value) :
  (c, a) ∈ trace (snd (run_from cfg w argv extra disk)) ->
  names c "seq2oh" = true ->
  c = Invoke (VAttr (VModule "utils") "seq2oh")
        [VStr (seq_of cfg); VList [VStr "A"; VStr "C"; VStr "G"; VStr "T"]] [].
Proof. exact (flow_seq2oh _ _ _ _ _ (script_flow cfg w argv extra disk) c a). Qed.

Lemma seq2oh_gets_the_padded_sequence_witness :
  (fst (nth_entry 8 step1_trace), snd (nth_entry 8 step1_trace))
    ∈ trace (snd (run_from as_written lab [] ∅ ∅)) /\
  names (fst (nth_entry 8 step1_trace)) "seq2oh" = true /\
  fst (nth_entry 8 step1_trace)
  = Invoke (VAttr (VModule "utils") "seq2oh")
      [VStr (seq_of as_written); VList [VStr "A"; VStr "C"; VStr "G"; VStr "T"]] [].
Proof.
  assert ((fst (nth_entry 8 step1_trace), snd (nth_entry 8 step1_trace))
            ∈ trace (snd (run_from as_written lab [] ∅ ∅))) as Hin
    by (apply entry_at with 8%nat; vm_compute; reflexivity).
  assert (names (fst (nth_entry 8 step1_trace)) "seq2oh" = true) as Hname
    by (vm_compute; reflexivity).
  split; [exact Hin|]. split; [exact Hname|].
  exact (seq2oh_gets_the_padded_sequence as_written lab [] ∅ ∅ _ _ Hin Hname).
Defined.

(** X4: the predictor is built from the [predict_on_batch] method of the
    model that [kipoi.get_model('BPNet-OSKN')] returned, for the task
    ['Nanog'] and batches of 512 (lines 38, 62 and 65). *)
Theorem predictor_wraps_the_fetched_model (cfg : config) (w : world)
    (argv : list string) (extra : gmap string value) (disk : gmap string node)
    (c : call) (a : outcome value) :
  (c, a) ∈ trace (snd (run_from cfg w argv extra disk)) ->
  names c "BPNetPredictor" = true ->
  exists model,
    (get_model_call, Ok model) ∈ trace (snd (run_from cfg w argv extra disk)) /\
    c = predictor_call model.
Proof. exact (flow_predictor _ _ _ _ _ (script_flow cfg w argv extra disk) c a). Qed.

Lemma predictor_wraps_the_fetched_model_witness :
  (fst (nth_entry 10 step1_trace), snd (nth_entry 10 step1_trace))
    ∈ trace (snd (run_from as_written lab [] ∅ ∅)) /\
  names (fst (nth_entry 10 step1_trace)) "BPNetPredictor" = true /\
  exists model,
    (get_model_call, Ok model) ∈ trace (snd (run_from as_written lab [] ∅ ∅)) /\
    fst (nth_entry 10 step1_trace) = predictor_call model.
Proof.
  assert ((fst (nth_entry 10 step1_trace), snd (nth_entry 10 step1_trace))
            ∈ trace (snd (run_from as_written lab [] ∅ ∅))) as Hin
    by (apply entry_at with 10%nat; vm_compute; reflexivity).
  assert (names (fst (nth_entry 10 step1_trace)) "BPNetPredictor" = true) as Hname
    by (vm_compute; reflexivity).
  split; [exact Hin|]. split; [exact Hname|].
  exact (predictor_wraps_the_fetched_model as_written lab [] ∅ ∅ _ _ Hin Hname).
Defined.

(** X5: [InSilicoMAVE] is given the mutagenizer that
    [RandomMutagenesis(mut_rate=0.1, uniform=False)] returned, the predictor
    that [BPNetPredictor] returned as [mut_predictor], and
    [context_agnostic=True] (lines 68 and 74-75). *)
Theorem mave_combines_mutagenizer_and_predictor (cfg : config) (w : world)
    (argv : list string) (extra : gmap string value) (disk : gmap string node)
    (c : call) (a : outcome value) :
  (c, a) ∈ trace (snd (run_from cfg w argv extra disk)) ->
  names c "InSilicoMAVE" = true ->
  exists model g p n,
    (mutagenizer_call, Ok g) ∈ trace (snd (run_from cfg w argv extra disk)) /\
    (predictor_call model, Ok p) ∈ trace (snd (run_from cfg w argv extra disk)) /\
    c = mave_call g p n.
Proof. exact (flow_mave _ _ _ _ _ (script_flow cfg w argv extra disk) c a). Qed.

Lemma mave_combines_mutagenizer_and_predictor_witness :
  (fst (nth_entry 13 step1_trace), snd (nth_entry 13 step1_trace))
    ∈ trace (snd (run_from as_written lab [] ∅ ∅)) /\
  names (fst (nth_entry 13 step1_trace)) "InSilicoMAVE" = true /\
  exists model g p n,
    (mutagenizer_call, Ok g) ∈ trace (snd (run_from as_written lab [] ∅ ∅)) /\
    (predictor_call model, Ok p) ∈ trace (snd (run_from as_written lab [] ∅ ∅)) /\
    fst (nth_entry 13 step1_trace) = mave_call g p n.
Proof.
  assert ((fst (nth_entry 13 step1_trace), snd (nth_entry 13 step1_trace))
            ∈ trace (snd (run_from as_written lab [] ∅ ∅))) as Hin
    by (apply entry_at with 13%nat; vm_compute; reflexivity).
  assert (names (fst (nth_entry 13 step1_trace)) "InSilicoMAVE" = true) as Hname
    by (vm_compute; reflexivity).
  split; [exact Hin|]. split; [exact Hname|].
  exact (mave_combines_mutagenizer_and_predictor as_written lab [] ∅ ∅ _ _ Hin Hname).
Defined.

(** X6: line 74 rebinds the name [mave] from the imported module to the
    object [InSilicoMAVE] returned, so [mave.generate] on line 76 is a
    method call on that object; its argument is the one-hot array that
    [seq2oh] returned, with [num_sim=10000]. *)
Theorem generate_runs_on_the_mave_object (cfg : config) (w : world)
    (argv : list string) (extra : gmap string value) (disk : gmap string node)
    (c : call) (a : outcome value) :
  (c, a) ∈ trace (snd (run_from cfg w argv extra disk)) ->
  names c "generate" = true ->
  exists g p n o x,
    (mave_call g p n, Ok o) ∈ trace (snd (run_from cfg w argv extra disk)) /\
    (seq2oh_call cfg, Ok x) ∈ trace (snd (run_from cfg w argv extra disk)) /\
    c = Invoke (VAttr o "generate") [x] [("num_sim", VInt 10000)].
Proof. exact (flow_generate _ _ _ _ _ (script_flow cfg w argv extra disk) c a). Qed.

Lemma generate_runs_on_the_mave_object_witness :
  (fst (nth_entry 14 step1_trace), snd (nth_entry 14 step1_trace))
    ∈ trace (snd (run_from as_written lab [] ∅ ∅)) /\
  names (fst (nth_entry 14 step1_trace)) "generate" = true /\
  exists g p n o x,
    (mave_call g p n, Ok o) ∈ trace (snd (run_from as_written lab [] ∅ ∅)) /\
    (seq2oh_call as_written, Ok x) ∈ trace (snd (run_from as_written lab [] ∅ ∅)) /\
    fst (nth_entry 14 step1_trace)
    = Invoke (VAttr o "generate") [x] [("num_sim", VInt 10000)].
Proof.
  assert ((fst (nth_entry 14 step1_trace), snd (nth_entry 14 step1_trace))
            ∈ trace (snd (run_from as_written lab [] ∅ ∅))) as Hin
    by (apply entry_at with 14%nat; vm_compute; reflexivity).
  assert (names (fst (nth_entry 14 step1_trace)) "generate" = true) as Hname
    by (vm_compute; reflexivity).
  split; [exact Hin|]. split; [exact Hname|].
  exact (generate_runs_on_the_mave_object as_written lab [] ∅ ∅ _ _ Hin Hname).
Defined.

(** X7: [np.save] is only ever called on the two halves of what [generate]
    returned: the first half goes to [x_mut.npy], the second to
    [y_mut.npy], both under the output directory (lines 76 and 80-81). *)
Theorem save_writes_the_generated_pair (cfg : config) (w : world)
    (argv : list string) (extra : gmap string value) (disk : gmap string node)
    (c : call) (a : outcome value) :
  (c, a) ∈ trace (snd (run_from cfg w argv extra disk)) ->
  names c "save" = true ->
  exists o x res xm ym,
    (generate_call o x, Ok res) ∈ trace (snd (run_from cfg w argv extra disk)) /\
    as_pair res = Ok (xm, ym) /\
    (c = save_call (OsPath.join (save_dir_of w) "x_mut.npy") xm \/
     c = save_call (OsPath.join (save_dir_of w) "y_mut.npy") ym).
Proof. exact (flow_save _ _ _ _ _ (script_flow cfg w argv extra disk) c a). Qed.

Lemma save_writes_the_generated_pair_witness :
  (fst (nth_entry 17 step1_trace), snd (nth_entry 17 step1_trace))
    ∈ trace (snd (run_from as_written lab [] ∅ ∅)) /\
  names (fst (nth_entry 17 step1_trace)) "save" = true /\
  exists o x res xm ym,
    (generate_call o x, Ok res) ∈ trace (snd (run_from as_written lab [] ∅ ∅)) /\
    as_pair res = Ok (xm, ym) /\
    (fst (nth_entry 17 step1_trace)
     = save_call (OsPath.join (save_dir_of lab) "x_mut.npy") xm \/
     fst (nth_entry 17 step1_trace)
     = save_call (OsPath.join (save_dir_of lab) "y_mut.npy") ym).
Proof.
  assert ((fst (nth_entry 17 step1_trace), snd (nth_entry 17 step1_trace))
            ∈ trace (snd (run_from as_written lab [] ∅ ∅))) as Hin
    by (apply entry_at with 17%nat; vm_compute; reflexivity).
  assert (names (fst (nth_entry 17 step1_trace)) "save" = true) as Hname
    by (vm_compute; reflexivity).
  split; [exact Hin|]. split; [exact Hname|].
  exact (save_writes_the_generated_pair as_written lab [] ∅ ∅ _ _ Hin Hname).
Defined.

(** X8: a STEP 1 run that ends without an exception leaves [x_mut.npy] and
    [y_mut.npy] on disk holding the two halves of what [generate] returned,
    whatever was stored under these names before (lines 76-81). *)
Theorem finished_step1_has_saved_both_arrays (cfg : config) (w : world)
    (argv : list string) (extra : gmap string value) (disk : gmap string node) :
  selects_step1 cfg = true ->
  fst (run_from cfg w argv extra disk) = Ok tt ->
  exists o x res xm ym,
    (generate_call o x, Ok res) ∈ trace (snd (run_from cfg w argv extra disk)) /\
    as_pair res = Ok (xm, ym) /\
    fs (snd (run_from cfg w argv extra disk)) !! OsPath.join (save_dir_of w) "x_mut.npy"
    = Some (File xm) /\
    fs (snd (run_from cfg w argv extra disk)) !! OsPath.join (save_dir_of w) "y_mut.npy"
    = Some (File ym).
Proof.
  intros Hsel Hok.
  exact (flow_saved _ _ _ _ _ (script_flow cfg w argv extra disk) Hok Hsel).
Qed.

Lemma finished_step1_has_saved_both_arrays_witness :
  selects_step1 as_written = true /\
  fst (run_from as_written lab [] ∅ disk_after_step1) = Ok tt /\
  exists o x res xm ym,
    (generate_call o x, Ok res)
      ∈ trace (snd (run_from as_written lab [] ∅ disk_after_step1)) /\
    as_pair res = Ok (xm, ym) /\
    fs (snd (run_from as_written lab [] ∅ disk_after_step1))
      !! OsPath.join (save_dir_of lab) "x_mut.npy" = Some (File xm) /\
    fs (snd (run_from as_written lab [] ∅ disk_after_step1))
      !! OsPath.join (save_dir_of lab) "y_mut.npy" = Some (File ym).
Proof.
  assert (selects_step1 as_written = true) as Hsel by reflexivity.
  assert (fst (run_from as_written lab [] ∅ disk_after_step1) = Ok tt) as Hok
    by (vm_compute; reflexivity).
  split; [exact Hsel|]. split; [exact Hok|].
  exact (finished_step1_has_saved_both_arrays as_written lab [] ∅ disk_after_step1 Hsel Hok).
Defined.

(** X9: if [generate] (line 76) or [train] (line 105) returns something
    that is not a sequence of exactly two items, the unpacking assignment
    raises, the run ends there with that error, and nothing has been
    saved. *)
Theorem unpacking_a_malformed_result_ends_the_run (cfg : config) (w : world)
    (argv : list string) (extra : gmap string value) (disk : gmap string node)
    (c : call) (res : value) (e : exn) :
  (c, Ok res) ∈ trace (snd (run_from cfg w argv extra disk)) ->
  (names c "generate" || names c "train")%bool = true ->
  as_pair res = Raise e ->
  fst (run_from cfg w argv extra disk) = Raise e /\
  last (trace (snd (run_from cfg w argv extra disk))) = Some (c, Ok res) /\
  called "save" (trace (snd (run_from cfg w argv extra disk))) = false.
Proof.
  intros Hin Hname Hpair.
  pose proof (flow_unpack _ _ _ _ _ (script_flow cfg w argv extra disk) c (Ok res) Hin Hname)
    as H.
  cbv beta iota in H. rewrite Hpair in H. exact H.
Qed.

Lemma unpacking_a_malformed_result_ends_the_run_witness :
  (Invoke (VAttr (VObj 13) "generate") [VObj 8] [("num_sim", VInt 10000)],
   Ok (VList [VObj 1; VObj 2; VObj 3]))
    ∈ trace (snd (run_from as_written triple_lab [] ∅ ∅)) /\
  (names (Invoke (VAttr (VObj 13) "generate") [VObj 8] [("num_sim", VInt 10000)]) "generate"
   || names (Invoke (VAttr (VObj 13) "generate") [VObj 8] [("num_sim", VInt 10000)]) "train")%bool
  = true /\
  as_pair (VList [VObj 1; VObj 2; VObj 3]) = Raise (ValueError "unpack") /\
  fst (run_from as_written triple_lab [] ∅ ∅) = Raise (ValueError "unpack") /\
  last (trace (snd (run_from as_written triple_lab [] ∅ ∅)))
  = Some (Invoke (VAttr (VObj 13) "generate") [VObj 8] [("num_sim", VInt 10000)],
          Ok (VList [VObj 1; VObj 2; VObj 3])) /\
  called "save" (trace (snd (run_from as_written triple_lab [] ∅ ∅))) = false.
Proof.
  assert ((Invoke (VAttr (VObj 13) "generate") [VObj 8] [("num_sim", VInt 10000)],
           Ok (VList [VObj 1; VObj 2; VObj 3]))
            ∈ trace (snd (run_from as_written triple_lab [] ∅ ∅))) as Hin
    by (apply entry_at with 14%nat; vm_compute; reflexivity).
  assert ((names (Invoke (VAttr (VObj 13) "generate") [VObj 8] [("num_sim", VInt 10000)])
             "generate"
           || names (Invoke (VAttr (VObj 13) "generate") [VObj 8] [("num_sim", VInt 10000)])
                "train")%bool = true) as Hname by reflexivity.
  assert (as_pair (VList [VObj 1; VObj 2; VObj 3]) = Raise (ValueError "unpack")) as Hpair
    by reflexivity.
  split; [exact Hin|]. split; [exact Hname|]. split; [exact Hpair|].
  exact (unpacking_a_malformed_result_ends_the_run as_written triple_lab [] ∅ ∅ _ _ _
           Hin Hname Hpair).
Defined.

(** X10: where the script raises on its own account.  Take a run of
    STEP 2, or a run of STEP 1 that has called [BPNetPredictor] - so that
    the attribute read [model.predict_on_batch] of line 65, which [attr]
    evaluates without consulting the world, has been passed.  If such a
    run ends with an exception although every call it made was answered
    normally, it stopped at the unbound [np] of line 93, at the unpacking
    of what [generate] or [train] returned (lines 76 and 105), or at the
    subscript [y_mut.shape[1]] of line 97. *)
Theorem the_scripts_own_failures (cfg : config) (w : world)
    (argv : list string) (extra : gmap string value) (disk : gmap string node)
    (e : exn) :
  (selects_step1 cfg = false \/
   called "BPNetPredictor" (trace (snd (run_from cfg w argv extra disk))) = true) ->
  fst (run_from cfg w argv extra disk) = Raise e ->
  all_ok (trace (snd (run_from cfg w argv extra disk))) = true ->
  (e = NameError "np" /\ extra !! "np" = None /\ selects_step1 cfg = false) \/
  (exists c res,
     last (trace (snd (run_from cfg w argv extra disk))) = Some (c, Ok res) /\
     (names c "generate" || names c "train")%bool = true /\
     as_pair res = Raise e) \/
  (exists o sy,
     last (trace (snd (run_from cfg w argv extra disk))) = Some (GetAttr o "shape", Ok sy) /\
     index sy (VInt 1) = Raise e).
Proof. intros _. exact (flow_own _ _ _ _ _ (script_flow cfg w argv extra disk) e). Qed.

Lemma the_scripts_own_failures_witness :
  (selects_step1 step2_config = false \/
   called "BPNetPredictor"
     (trace (snd (run_from step2_config flat_lab [] with_numpy disk_after_step1))) = true) /\
  fst (run_from step2_config flat_lab [] with_numpy disk_after_step1) = Raise IndexError /\
  all_ok (trace (snd (run_from step2_config flat_lab [] with_numpy disk_after_step1))) = true /\
  ((IndexError = NameError "np" /\ with_numpy !! "np" = None /\
    selects_step1 step2_config = false) \/
   (exists c res,
      last (trace (snd (run_from step2_config flat_lab [] with_numpy disk_after_step1)))
      = Some (c, Ok res) /\
      (names c "generate" || names c "train")%bool = true /\
      as_pair res = Raise IndexError) \/
   (exists o sy,
      last (trace (snd (run_from step2_config flat_lab [] with_numpy disk_after_step1)))
      = Some (GetAttr o "shape", Ok sy) /\
      index sy (VInt 1) = Raise IndexError)).
Proof.
  assert (selects_step1 step2_config = false \/
          called "BPNetPredictor"
            (trace (snd (run_from step2_config flat_lab [] with_numpy disk_after_step1)))
          = true) as Hpast by (left; reflexivity).
  assert (fst (run_from step2_config flat_lab [] with_numpy disk_after_step1)
          = Raise IndexError) as Hraise by (vm_compute; reflexivity).
  assert (all_ok (trace (snd (run_from step2_config flat_lab [] with_numpy disk_after_step1)))
          = true) as Hall by (vm_compute; reflexivity).
  split; [exact Hpast|]. split; [exact Hraise|]. split; [exact Hall|].
  exact (the_scripts_own_failures step2_config flat_lab [] with_numpy disk_after_step1 _
           Hpast Hraise Hall).
Defined.

(** X11: a STEP 1 run that ends without an exception has made exactly the
    calls of lines 34-81, in the order of the file: the directory test
    (and [makedirs] exactly when the directory was missing), the six
    imports, [seq2oh], [get_model], [BPNetPredictor], [RandomMutagenesis],
    possibly [x.__len__], [InSilicoMAVE], [generate], [print], and the two
    [np.save]. *)
Theorem finished_step1_made_these_calls (cfg : config) (w : world)
    (argv : list string) (extra : gmap string value) (disk : gmap string node) :
  selects_step1 cfg = true ->
  fst (run_from cfg w argv extra disk) = Ok tt ->
  exists asked,
    steps (trace (snd (run_from cfg w argv extra disk)))
    = step1_steps (negb (bool_decide (is_Some (disk !! save_dir_of w)))) asked.
Proof.
  intros Hsel Hok.
  exact (flow_step1_done _ _ _ _ _ (script_flow cfg w argv extra disk) Hok Hsel).
Qed.

Lemma finished_step1_made_these_calls_witness :
  selects_step1 as_written = true /\
  fst (run_from as_written lab [] ∅ ∅) = Ok tt /\
  exists asked,
    steps (trace (snd (run_from as_written lab [] ∅ ∅)))
    = step1_steps (negb (bool_decide (is_Some ((∅ : gmap string node) !! save_dir_of lab))))
        asked.
Proof.
  assert (selects_step1 as_written = true) as Hsel by reflexivity.
  assert (fst (run_from as_written lab [] ∅ ∅) = Ok tt) as Hok by (vm_compute; reflexivity).
  split; [exact Hsel|]. split; [exact Hok|].
  exact (finished_step1_made_these_calls as_written lab [] ∅ ∅ Hsel Hok).
Defined.

(** X12: [np.load] is only ever called on [x_mut.npy] and [y_mut.npy] under
    the output directory, through whatever [np] was bound to when the run
    started; when that is numpy, the call returns the array stored in the
    file and raises [FileNotFoundError] when there is no such file (lines
    93-94). *)
Theorem load_reads_the_two_dataset_files (cfg : config) (w : world)
    (argv : list string) (extra : gmap string value) (disk : gmap string node)
    (c : call) (a : outcome value) :
  (c, a) ∈ trace (snd (run_from cfg w argv extra disk)) ->
  names c "load" = true ->
  exists np p,
    extra !! "np" = Some np /\
    c = Invoke (VAttr np "load") [VStr p] [] /\
    (p = OsPath.join (save_dir_of w) "x_mut.npy" \/
     p = OsPath.join (save_dir_of w) "y_mut.npy") /\
    (np = VModule "numpy" ->
     (forall v, disk !! p = Some (File v) -> a = Ok v) /\
     (disk !! p = None -> a = Raise (FileNotFoundError p))).
Proof. exact (flow_load _ _ _ _ _ (script_flow cfg w argv extra disk) c a). Qed.

Lemma load_reads_the_two_dataset_files_witness :
  (fst (nth_entry 5 step2_trace), snd (nth_entry 5 step2_trace))
    ∈ trace (snd (run_from step2_config lab [] with_numpy disk_after_step1)) /\
  names (fst (nth_entry 5 step2_trace)) "load" = true /\
  exists np p,
    with_numpy !! "np" = Some np /\
    fst (nth_entry 5 step2_trace) = Invoke (VAttr np "load") [VStr p] [] /\
    (p = OsPath.join (save_dir_of lab) "x_mut.npy" \/
     p = OsPath.join (save_dir_of lab) "y_mut.npy") /\
    (np = VModule "numpy" ->
     (forall v, disk_after_step1 !! p = Some (File v) -> snd (nth_entry 5 step2_trace) = Ok v) /\
     (disk_after_step1 !! p = None ->
      snd (nth_entry 5 step2_trace) = Raise (FileNotFoundError p))).
Proof.
  assert ((fst (nth_entry 5 step2_trace), snd (nth_entry 5 step2_trace))
            ∈ trace (snd (run_from step2_config lab [] with_numpy disk_after_step1))) as Hin
    by (apply entry_at with 5%nat; vm_compute; reflexivity).
  assert (names (fst (nth_entry 5 step2_trace)) "load" = true) as Hname
    by (vm_compute; reflexivity).
  split; [exact Hin|]. split; [exact Hname|].
  exact (load_reads_the_two_dataset_files step2_config lab [] with_numpy disk_after_step1
           _ _ Hin Hname).
Defined.

(** X13: a STEP 2 that has numpy as [np] and gets past its imports, but
    finds no [x_mut.npy] in the output directory, ends with
    [FileNotFoundError] for that path; no surrogate model is built or
    trained (lines 93-105). *)
Theorem step2_without_dataset_stops_at_load (cfg : config) (w : world)
    (argv : list string) (extra : gmap string value) (disk : gmap string node) :
  extra !! "np" = Some (VModule "numpy") ->
  reached_np_load (trace (snd (run_from cfg w argv extra disk))) = true ->
  disk !! OsPath.join (save_dir_of w) "x_mut.npy" = None ->
  fst (run_from cfg w argv extra disk)
  = Raise (FileNotFoundError (OsPath.join (save_dir_of w) "x_mut.npy")) /\
  called "SurrogateMAVENN" (trace (snd (run_from cfg w argv extra disk))) = false /\
  called "train" (trace (snd (run_from cfg w argv extra disk))) = false.
Proof.
  intros Hnp Hreach Hmiss.
  pose proof (script_flow cfg w argv extra disk) as Hflow.
  assert (forall np' v,
            (load_call np' (x_mut_path w), Ok v) ∈ trace (snd (run_from cfg w argv extra disk))
            -> False) as Hnever.
  { intros np' v Hin.
    destruct (flow_load _ _ _ _ _ Hflow _ _ Hin eq_refl) as (np & p & Hnp' & Hc & _ & Hans).
    injection Hc as -> <-. rewrite Hnp in Hnp'. injection Hnp' as <-.
    destruct (Hans eq_refl) as [_ Hnone]. specialize (Hnone Hmiss). discriminate Hnone. }
  destruct (flow_reached _ _ _ _ _ Hflow _ Hreach Hnp) as [a Hin].
  destruct (flow_load _ _ _ _ _ Hflow _ _ Hin eq_refl) as (np & p & Hnp' & Hc & _ & Hans).
  injection Hc as <- <-.
  destruct (Hans eq_refl) as [_ Hnone]. specialize (Hnone Hmiss). subst a.
  split; [exact (proj1 (raised_entry_ends_run _ _ _ _ _ _ _ Hin))|].
  split; apply not_called; intros c r Hc Hn.
  - destruct (flow_surrogate _ _ _ _ _ Hflow c r Hc Hn) as (np' & vx & ? & ? & ? & ? & Hx & _).
    exact (Hnever _ _ Hx).
  - destruct (flow_train _ _ _ _ _ Hflow c r Hc Hn) as (np' & vx & ? & ? & ? & ? & Hx & _).
    exact (Hnever _ _ Hx).
Qed.

Lemma step2_without_dataset_stops_at_load_witness :
  with_numpy !! "np" = Some (VModule "numpy") /\
  reached_np_load (trace (snd (run_from step2_config lab [] with_numpy ∅))) = true /\
  (∅ : gmap string node) !! OsPath.join (save_dir_of lab) "x_mut.npy" = None /\
  fst (run_from step2_config lab [] with_numpy ∅)
  = Raise (FileNotFoundError (OsPath.join (save_dir_of lab) "x_mut.npy")) /\
  called "SurrogateMAVENN" (trace (snd (run_from step2_config lab [] with_numpy ∅))) = false /\
  called "train" (trace (snd (run_from step2_config lab [] with_numpy ∅))) = false.
Proof.
  assert (with_numpy !! "np" = Some (VModule "numpy")) as Hnp by (vm_compute; reflexivity).
  assert (reached_np_load (trace (snd (run_from step2_config lab [] with_numpy ∅))) = true)
    as Hreach by (vm_compute; reflexivity).
  assert ((∅ : gmap string node) !! OsPath.join (save_dir_of lab) "x_mut.npy" = None)
    as Hmiss by (vm_compute; reflexivity).
  split; [exact Hnp|]. split; [exact Hreach|]. split; [exact Hmiss|].
  exact (step2_without_dataset_stops_at_load step2_config lab [] with_numpy ∅
           Hnp Hreach Hmiss).
Defined.

(** X14: the surrogate model is built from the shape of the array loaded
    from [x_mut.npy], with [num_tasks] the entry at index 1 of the shape of
    the array loaded from [y_mut.npy], and the fixed settings of lines
    97-102. *)
Theorem surrogate_is_sized_by_the_loaded_arrays (cfg : config) (w : world)
    (argv : list string) (extra : gmap string value) (disk : gmap string node)
    (c : call) (a : outcome value) :
  (c, a) ∈ trace (snd (run_from cfg w argv extra disk)) ->
  names c "SurrogateMAVENN" = true ->
  exists np vx vy sx sy n,
    (load_call np (x_mut_path w), Ok vx) ∈ trace (snd (run_from cfg w argv extra disk)) /\
    (load_call np (y_mut_path w), Ok vy) ∈ trace (snd (run_from cfg w argv extra disk)) /\
    (GetAttr vx "shape", Ok sx) ∈ trace (snd (run_from cfg w argv extra disk)) /\
    (GetAttr vy "shape", Ok sy) ∈ trace (snd (run_from cfg w argv extra disk)) /\
    index sy (VInt 1) = Ok n /\
    c = surrogate_call sx n.
Proof. exact (flow_surrogate _ _ _ _ _ (script_flow cfg w argv extra disk) c a). Qed.

Lemma surrogate_is_sized_by_the_loaded_arrays_witness :
  (fst (nth_entry 8 step2_trace), snd (nth_entry 8 step2_trace))
    ∈ trace (snd (run_from step2_config lab [] with_numpy disk_after_step1)) /\
  names (fst (nth_entry 8 step2_trace)) "SurrogateMAVENN" = true /\
  exists np vx vy sx sy n,
    (load_call np (x_mut_path lab), Ok vx)
      ∈ trace (snd (run_from step2_config lab [] with_numpy disk_after_step1)) /\
    (load_call np (y_mut_path lab), Ok vy)
      ∈ trace (snd (run_from step2_config lab [] with_numpy disk_after_step1)) /\
    (GetAttr vx "shape", Ok sx)
      ∈ trace (snd (run_from step2_config lab [] with_numpy disk_after_step1)) /\
    (GetAttr vy "shape", Ok sy)
      ∈ trace (snd (run_from step2_config lab [] with_numpy disk_after_step1)) /\
    index sy (VInt 1) = Ok n /\
    fst (nth_entry 8 step2_trace) = surrogate_call sx n.
Proof.
  assert ((fst (nth_entry 8 step2_trace), snd (nth_entry 8 step2_trace))
            ∈ trace (snd (run_from step2_config lab [] with_numpy disk_after_step1))) as Hin
    by (apply entry_at with 8%nat; vm_compute; reflexivity).
  assert (names (fst (nth_entry 8 step2_trace)) "SurrogateMAVENN" = true) as Hname
    by (vm_compute; reflexivity).
  split; [exact Hin|]. split; [exact Hname|].
  exact (surrogate_is_sized_by_the_loaded_arrays step2_config lab [] with_numpy
           disk_after_step1 _ _ Hin Hname).
Defined.

(** X15: [train] is a method call on the surrogate model that
    [SurrogateMAVENN] returned; it is given the two loaded arrays, [x_mut]
    first, and the settings of lines 105-107, among them [save_dir=None]. *)
Theorem train_fits_the_loaded_arrays (cfg : config) (w : world)
    (argv : list string) (extra : gmap string value) (disk : gmap string node)
    (c : call) (a : outcome value) :
  (c, a) ∈ trace (snd (run_from cfg w argv extra disk)) ->
  names c "train" = true ->
  exists np vx vy sx n sm,
    (load_call np (x_mut_path w), Ok vx) ∈ trace (snd (run_from cfg w argv extra disk)) /\
    (load_call np (y_mut_path w), Ok vy) ∈ trace (snd (run_from cfg w argv extra disk)) /\
    (surrogate_call sx n, Ok sm) ∈ trace (snd (run_from cfg w argv extra disk)) /\
    c = train_call sm vx vy.
Proof. exact (flow_train _ _ _ _ _ (script_flow cfg w argv extra disk) c a). Qed.

Lemma train_fits_the_loaded_arrays_witness :
  (fst (nth_entry 9 step2_trace), snd (nth_entry 9 step2_trace))
    ∈ trace (snd (run_from step2_config lab [] with_numpy disk_after_step1)) /\
  names (fst (nth_entry 9 step2_trace)) "train" = true /\
  exists np vx vy sx n sm,
    (load_call np (x_mut_path lab), Ok vx)
      ∈ trace (snd (run_from step2_config lab [] with_numpy disk_after_step1)) /\
    (load_call np (y_mut_path lab), Ok vy)
      ∈ trace (snd (run_from step2_config lab [] with_numpy disk_after_step1)) /\
    (surrogate_call sx n, Ok sm)
      ∈ trace (snd (run_from step2_config lab [] with_numpy disk_after_step1)) /\
    fst (nth_entry 9 step2_trace) = train_call sm vx vy.
Proof.
  assert ((fst (nth_entry 9 step2_trace), snd (nth_entry 9 step2_trace))
            ∈ trace (snd (run_from step2_config lab [] with_numpy disk_after_step1))) as Hin
    by (apply entry_at with 9%nat; vm_compute; reflexivity).
  assert (names (fst (nth_entry 9 step2_trace)) "train" = true) as Hname
    by (vm_compute; reflexivity).
  split; [exact Hin|]. split; [exact Hname|].
  exact (train_fits_the_loaded_arrays step2_config lab [] with_numpy disk_after_step1
           _ _ Hin Hname).
Defined.

(** X16: [get_params] and [get_logo] are method calls on the same surrogate
    model, made only after [train] has returned on it; [get_params] asks
    for the empirical gauge, and [get_logo] is called only after
    [get_params] has returned (lines 105-113). *)
Theorem parameters_and_logo_come_from_the_trained_model (cfg : config) (w : world)
    (argv : list string) (extra : gmap string value) (disk : gmap string node)
    (c : call) (a : outcome value) :
  (c, a) ∈ trace (snd (run_from cfg w argv extra disk)) ->
  (names c "get_params" || names c "get_logo")%bool = true ->
  exists sx n sm vx vy res,
    (surrogate_call sx n, Ok sm) ∈ trace (snd (run_from cfg w argv extra disk)) /\
    (train_call sm vx vy, Ok res) ∈ trace (snd (run_from cfg w argv extra disk)) /\
    (c = get_params_call sm \/
     (exists ps, (get_params_call sm, Ok ps) ∈ trace (snd (run_from cfg w argv extra disk))) /\
     c = get_logo_call cfg sm).
Proof. exact (flow_params _ _ _ _ _ (script_flow cfg w argv extra disk) c a). Qed.

Lemma parameters_and_logo_come_from_the_trained_model_witness :
  (fst (nth_entry 10 step2_trace), snd (nth_entry 10 step2_trace))
    ∈ trace (snd (run_from step2_config lab [] with_numpy disk_after_step1)) /\
  (names (fst (nth_entry 10 step2_trace)) "get_params"
   || names (fst (nth_entry 10 step2_trace)) "get_logo")%bool = true /\
  exists sx n sm vx vy res,
    (surrogate_call sx n, Ok sm)
      ∈ trace (snd (run_from step2_config lab [] with_numpy disk_after_step1)) /\
    (train_call sm vx vy, Ok res)
      ∈ trace (snd (run_from step2_config lab [] with_numpy disk_after_step1)) /\
    (fst (nth_entry 10 step2_trace) = get_params_call sm \/
     (exists ps, (get_params_call sm, Ok ps)
                   ∈ trace (snd (run_from step2_config lab [] with_numpy disk_after_step1))) /\
     fst (nth_entry 10 step2_trace) = get_logo_call step2_config sm).
Proof.
  assert ((fst (nth_entry 10 step2_trace), snd (nth_entry 10 step2_trace))
            ∈ trace (snd (run_from step2_config lab [] with_numpy disk_after_step1))) as Hin
    by (apply entry_at with 10%nat; vm_compute; reflexivity).
  assert ((names (fst (nth_entry 10 step2_trace)) "get_params"
           || names (fst (nth_entry 10 step2_trace)) "get_logo")%bool = true) as Hname
    by (vm_compute; reflexivity).
  split; [exact Hin|]. split; [exact Hname|].
  exact (parameters_and_logo_come_from_the_trained_model step2_config lab [] with_numpy
           disk_after_step1 _ _ Hin Hname).
Defined.

(** X17: the three outputs of STEP 2 all derive from the one array that
    [get_logo] returned: [arr2pd] turns it into a table, that table is
    printed and then written to [logo.csv] under the output directory, and
    [plot_additive_logo] draws the same array, centred, over the motif
    window, saving into the output directory (lines 113-120). *)
Theorem outputs_derive_from_the_logo (cfg : config) (w : world)
    (argv : list string) (extra : gmap string value) (disk : gmap string node)
    (c : call) (a : outcome value) :
  (c, a) ∈ trace (snd (run_from cfg w argv extra disk)) ->
  (names c "arr2pd" || names c "to_csv" || names c "plot_additive_logo")%bool = true ->
  exists sm logo,
    (get_logo_call cfg sm, Ok logo) ∈ trace (snd (run_from cfg w argv extra disk)) /\
    (c = arr2pd_call logo \/
     exists df pr,
       (arr2pd_call logo, Ok df) ∈ trace (snd (run_from cfg w argv extra disk)) /\
       (print_call [df], Ok pr) ∈ trace (snd (run_from cfg w argv extra disk)) /\
       (c = to_csv_call w df \/
        (exists csv, (to_csv_call w df, Ok csv) ∈ trace (snd (run_from cfg w argv extra disk))) /\
        c = plot_call cfg w logo)).
Proof. exact (flow_logo_out _ _ _ _ _ (script_flow cfg w argv extra disk) c a). Qed.

Lemma outputs_derive_from_the_logo_witness :
  (fst (nth_entry 15 step2_trace), snd (nth_entry 15 step2_trace))
    ∈ trace (snd (run_from step2_config lab [] with_numpy disk_after_step1)) /\
  (names (fst (nth_entry 15 step2_trace)) "arr2pd"
   || names (fst (nth_entry 15 step2_trace)) "to_csv"
   || names (fst (nth_entry 15 step2_trace)) "plot_additive_logo")%bool = true /\
  exists sm logo,
    (get_logo_call step2_config sm, Ok logo)
      ∈ trace (snd (run_from step2_config lab [] with_numpy disk_after_step1)) /\
    (fst (nth_entry 15 step2_trace) = arr2pd_call logo \/
     exists df pr,
       (arr2pd_call logo, Ok df)
         ∈ trace (snd (run_from step2_config lab [] with_numpy disk_after_step1)) /\
       (print_call [df], Ok pr)
         ∈ trace (snd (run_from step2_config lab [] with_numpy disk_after_step1)) /\
       (fst (nth_entry 15 step2_trace) = to_csv_call lab df \/
        (exists csv, (to_csv_call lab df, Ok csv)
                       ∈ trace (snd (run_from step2_config lab [] with_numpy disk_after_step1))) /\
        fst (nth_entry 15 step2_trace) = plot_call step2_config lab logo)).
Proof.
  assert ((fst (nth_entry 15 step2_trace), snd (nth_entry 15 step2_trace))
            ∈ trace (snd (run_from step2_config lab [] with_numpy disk_after_step1))) as Hin
    by (apply entry_at with 15%nat; vm_compute; reflexivity).
  assert ((names (fst (nth_entry 15 step2_trace)) "arr2pd"
           || names (fst (nth_entry 15 step2_trace)) "to_csv"
           || names (fst (nth_entry 15 step2_trace)) "plot_additive_logo")%bool = true)
    as Hname by (vm_compute; reflexivity).
  split; [exact Hin|]. split; [exact Hname|].
  exact (outputs_derive_from_the_logo step2_config lab [] with_numpy disk_after_step1
           _ _ Hin Hname).
Defined.

(** X18: a STEP 2 run that ends without an exception has made exactly the
    calls of lines 34-35 and 85-120, in the order of the file. *)
Theorem finished_step2_made_these_calls (cfg : config) (w : world)
    (argv : list string) (extra : gmap string value) (disk : gmap string node) :
  selects_step1 cfg = false ->
  fst (run_from cfg w argv extra disk) = Ok tt ->
  steps (trace (snd (run_from cfg w argv extra disk)))
  = step2_steps (negb (bool_decide (is_Some (disk !! save_dir_of w)))).
Proof.
  intros Hsel Hok.
  exact (flow_step2_done _ _ _ _ _ (script_flow cfg w argv extra disk) Hok Hsel).
Qed.

Lemma finished_step2_made_these_calls_witness :
  selects_step1 step2_config = false /\
  fst (run_from step2_config lab [] with_numpy disk_after_step1) = Ok tt /\
  steps (trace (snd (run_from step2_config lab [] with_numpy disk_after_step1)))
  = step2_steps (negb (bool_decide (is_Some (disk_after_step1 !! save_dir_of lab)))).
Proof.
  assert (selects_step1 step2_config = false) as Hsel by reflexivity.
  assert (fst (run_from step2_config lab [] with_numpy disk_after_step1) = Ok tt) as Hok
    by (vm_compute; reflexivity).
  split; [exact Hsel|]. split; [exact Hok|].
  exact (finished_step2_made_these_calls step2_config lab [] with_numpy disk_after_step1
           Hsel Hok).
Defined.

(** X19: save and load round-trip.  Take the disk a finished STEP 1 run
    leaves behind and run the script on it again, from the same place and
    with numpy bound to [np]: every [train] call of the second run is
    given exactly the two arrays the first run's [generate] returned
    (lines 76-81, 93-94 and 105). *)
Theorem training_sees_what_step1_generated (cfg1 cfg2 : config) (w1 w2 : world)
    (argv1 argv2 : list string) (extra1 extra2 : gmap string value)
    (disk : gmap string node) (c : call) (a : outcome value) :
  selects_step1 cfg1 = true ->
  fst (run_from cfg1 w1 argv1 extra1 disk) = Ok tt ->
  save_dir_of w2 = save_dir_of w1 ->
  extra2 !! "np" = Some (VModule "numpy") ->
  (c, a) ∈ trace (snd (run_from cfg2 w2 argv2 extra2
                         (fs (snd (run_from cfg1 w1 argv1 extra1 disk))))) ->
  names c "train" = true ->
  exists o x res xm ym sm,
    (generate_call o x, Ok res) ∈ trace (snd (run_from cfg1 w1 argv1 extra1 disk)) /\
    as_pair res = Ok (xm, ym) /\
    c = train_call sm xm ym.
Proof.
  intros Hsel Hok Hdir Hnp Hin Hname.
  destruct (flow_saved _ _ _ _ _ (script_flow cfg1 w1 argv1 extra1 disk) Hok Hsel)
    as (o & x & res & xm & ym & Hgen & Hpair & Hx & Hy).
  set (disk2 := fs (snd (run_from cfg1 w1 argv1 extra1 disk))) in *.
  pose proof (script_flow cfg2 w2 argv2 extra2 disk2) as Hflow.
  destruct (flow_train _ _ _ _ _ Hflow c a Hin Hname)
    as (np & vx & vy & sx & n & sm & Hlx & Hly & _ & Hc).
  assert (forall p v,
            (load_call np p, Ok v) ∈ trace (snd (run_from cfg2 w2 argv2 extra2 disk2)) ->
            forall v', disk2 !! p = Some (File v') -> v = v') as Hread.
  { intros p v Hl v' Hv'.
    destruct (flow_load _ _ _ _ _ Hflow _ _ Hl eq_refl) as (np' & p' & Hnp' & Hc' & _ & Hans).
    injection Hc' as -> ->. rewrite Hnp in Hnp'. injection Hnp' as <-.
    destruct (Hans eq_refl) as [Hsome _]. specialize (Hsome _ Hv'). by injection Hsome. }
  unfold x_mut_path, y_mut_path in *. rewrite Hdir in Hlx, Hly.
  rewrite (Hread _ _ Hlx _ Hx), (Hread _ _ Hly _ Hy) in Hc.
  exists o, x, res, xm, ym, sm. done.
Qed.

Lemma training_sees_what_step1_generated_witness :
  selects_step1 as_written = true /\
  fst (run_from as_written lab [] ∅ ∅) = Ok tt /\
  save_dir_of lab = save_dir_of lab /\
  with_numpy !! "np" = Some (VModule "numpy") /\
  (fst (nth_entry 9 step2_trace), snd (nth_entry 9 step2_trace))
    ∈ trace (snd (run_from step2_config lab [] with_numpy
                    (fs (snd (run_from as_written lab [] ∅ ∅))))) /\
  names (fst (nth_entry 9 step2_trace)) "train" = true /\
  exists o x res xm ym sm,
    (generate_call o x, Ok res) ∈ trace (snd (run_from as_written lab [] ∅ ∅)) /\
    as_pair res = Ok (xm, ym) /\
    fst (nth_entry 9 step2_trace) = train_call sm xm ym.
Proof.
  assert (selects_step1 as_written = true) as Hsel by reflexivity.
  assert (fst (run_from as_written lab [] ∅ ∅) = Ok tt) as Hok by (vm_compute; reflexivity).
  assert (save_dir_of lab = save_dir_of lab) as Hdir by reflexivity.
  assert (with_numpy !! "np" = Some (VModule "numpy")) as Hnp by (vm_compute; reflexivity).
  assert ((fst (nth_entry 9 step2_trace), snd (nth_entry 9 step2_trace))
            ∈ trace (snd (run_from step2_config lab [] with_numpy
                            (fs (snd (run_from as_written lab [] ∅ ∅)))))) as Hin
    by (apply entry_at with 9%nat; vm_compute; reflexivity).
  assert (names (fst (nth_entry 9 step2_trace)) "train" = true) as Hname
    by (vm_compute; reflexivity).
  split; [exact Hsel|]. split; [exact Hok|]. split; [exact Hdir|]. split; [exact Hnp|].
  split; [exact Hin|]. split; [exact Hname|].
  exact (training_sees_what_step1_generated as_written step2_config lab lab [] [] ∅ with_numpy
           ∅ _ _ Hsel Hok Hdir Hnp Hin Hname).
Defined.

(** X20: the two phases keep their libraries apart.  Every module a run
    imports belongs to the phase the switch selects: [kipoi], [numpy] and
    the four squid modules for STEP 1; [mavenn], [squid] and
    [matplotlib.pyplot] for STEP 2 (lines 51-54 and 85-87). *)
Theorem imports_belong_to_the_selected_phase (cfg : config) (w : world)
    (argv : list string) (extra : gmap string value) (disk : gmap string node)
    (m : list string) (a : outcome value) :
  (Import m, a) ∈ trace (snd (run_from cfg w argv extra disk)) ->
  m ∈ (if selects_step1 cfg then step1_modules else step2_modules).
Proof.
  intros Hin.
  pose proof (flow_imports _ _ _ _ _ (script_flow cfg w argv extra disk)) as H.
  unfold imports_within in H. rewrite forallb_forall in H.
  apply list_elem_of_In in Hin. specialize (H _ Hin). cbn in H.
  apply existsb_exists in H as (m' & Hm' & Heq).
  apply names_eqb_eq in Heq. subst m'. apply list_elem_of_In. exact Hm'.
Qed.

Lemma imports_belong_to_the_selected_phase_witness :
  (Import ["numpy"], Ok VNone) ∈ trace (snd (run_from as_written lab [] ∅ ∅)) /\
  ["numpy"] ∈ (if selects_step1 as_written then step1_modules else step2_modules).
Proof.
  assert ((Import ["numpy"], Ok VNone) ∈ trace (snd (run_from as_written lab [] ∅ ∅))) as Hin
    by (apply entry_at with 3%nat; vm_compute; reflexivity).
  split; [exact Hin|].
  exact (imports_belong_to_the_selected_phase as_written lab [] ∅ ∅ _ _ Hin).
Defined.

(** X21: line 46 for arbitrary settings.  With [h] the larger of
    [seq_length//2] and 0 and [p = len(pattern)], [seq] is [h] symbols
    ['N'], the pattern, and then [h - p] more ['N'] if [1 <= p <= h] and
    none otherwise: an empty pattern gets no right padding at all (the
    slice [[:-0]] is empty), and a pattern longer than [h] makes [seq]
    longer than [2 * h]. *)
Theorem seq_for_arbitrary_settings (cfg : config) (w : world) (s : state) :
  exists q,
    fst (motif cfg w s) = Ok tt /\
    globals (snd (motif cfg w s)) !! "seq" = Some (VStr q) /\
    q = (repeat_str "N" (Z.to_nat (seq_length cfg / 2)) +:+ pattern cfg)
        +:+ repeat_str "N"
              (if Nat.eqb (String.length (pattern cfg)) 0 then 0
               else Z.to_nat (seq_length cfg / 2) - String.length (pattern cfg)) /\
    String.length q
    = (Z.to_nat (seq_length cfg / 2) + String.length (pattern cfg)
       + (if Nat.eqb (String.length (pattern cfg)) 0 then 0
          else Z.to_nat (seq_length cfg / 2) - String.length (pattern cfg)))%nat.
Proof.
  exists (seq_of cfg).
  destruct (motif_prepared cfg w s) as (Hok & Hseq & _).
  split; [exact Hok|]. split; [exact Hseq|].
  split; [exact (seq_of_parts cfg) | exact (len_seq_of cfg)].
Qed.

(** Line 46 with an empty pattern and with one that does not fit. *)
Example seq_edge_cases :
  seq_of {| switch := 1; seq_length := 6; pattern := "" |} = "NNN" /\
  seq_of {| switch := 1; seq_length := 6; pattern := "ACGT" |} = "NNNACGT" /\
  seq_of {| switch := 1; seq_length := 7; pattern := "AC" |} = "NNNACN" /\
  seq_of {| switch := 1; seq_length := -4; pattern := "AC" |} = "AC".
Proof. repeat split; vm_compute; reflexivity. Qed.
